(** * The Lightspeed playbook-generation wizard and the CI bootstrap script

    A shallow embedding of

    - [src/features/lightspeed/playbookGeneration.ts]: the host side of the
      playbook-generation webview;
    - the repository's bootstrap shell script (module [Bootstrap]).

    The TypeScript file is written against the VS Code extension host: its
    functions are [async], they share two module-level variables, and the
    host interleaves them at every [await] of a pending promise.  The
    embedding keeps that shape: a function is a program of a small
    resumption monad whose operations are the module-variable accesses and
    the host calls, and the host is an event loop that runs one turn per
    event.

    Two conventions of the host are built in.  A function of this file
    that is awaited and finishes without waiting for the host itself
    ([sendActionEvent]) continues in the same turn: its continuation is a
    microtask, and microtasks run before the next event is delivered.
    And host calls themselves do not throw, except [feedbackRequest],
    which the file guards with [try]/[catch]. *)

From Stdlib Require Import String Ascii List ZArith Bool Lia PeanoNat.
From ExtLib Require Import Structures.Monad.
Import ListNotations.
Import MonadNotation.
Local Open Scope string_scope.
Local Open Scope list_scope.
Local Open Scope monad_scope.

Set Implicit Arguments.

(* ===================================================================== *)
(** * JavaScript values                                                  *)
(* ===================================================================== *)

(** The fields of a webview message are untyped ([message] is [any]).  The
    handler only tests them for truthiness, compares them with
    [undefined], and passes them on, so primitive values are enough.
    Numbers in these messages are page indices and are kept as integers. *)
Inductive jsval : Type :=
| JUndefined
| JNull
| JBool (b : bool)
| JNum (n : Z)
| JStr (s : string).

(** [if (v)] / [!v]. *)
Definition truthy (v : jsval) : bool :=
  match v with
  | JUndefined | JNull => false
  | JBool b => b
  | JNum n => negb (n =? 0)%Z
  | JStr s => negb (s =? EmptyString)
  end.

(** [v === undefined]. *)
Definition is_undefined (v : jsval) : bool :=
  match v with JUndefined => true | _ => false end.

(** [v === "..."] for a string literal. *)
Definition is_string (v : jsval) (lit : string) : bool :=
  match v with JStr s => s =? lit | _ => false end.

(** [value === "..."] for the item a message box resolves to. *)
Definition chose (value : option string) (lit : string) : bool :=
  match value with Some s => s =? lit | None => false end.

(** [if (wizardId)] for a variable of type [string | undefined]. *)
Definition truthy_id (w : option string) : bool :=
  match w with Some s => negb (s =? EmptyString) | None => false end.

(** A thrown value; only its [message] is ever read. *)
Inductive exn : Type := JsError (message : string).

Definition message_of (e : exn) : string :=
  match e with JsError m => m end.

(** How a promise settles. *)
Inductive result (T : Type) : Type :=
| Resolved (t : T)
| Rejected (e : exn).
Arguments Rejected {T} e.

(* ===================================================================== *)
(** * Data exchanged with the host and the service                       *)
(* ===================================================================== *)

Definition panel := nat.

(** [WizardGenerationActionType] is declared in
    [../../definitions/lightspeed]; these are the four members the file
    uses. *)
Inductive WizardGenerationActionType : Type :=
| OPEN | CLOSE_CANCEL | TRANSITION | CLOSE_ACCEPT.

(** The [playbookGenerationAction] object built by [sendActionEvent]. *)
Record PlaybookGenerationAction : Type := mkAction {
  a_wizardId : string;
  a_action : WizardGenerationActionType;
  a_fromPage : jsval;
  a_toPage : jsval
}.

(** [PlaybookGenerationResponseParams] is declared in
    [../../interfaces/lightspeed]; the file reads [playbook] and
    [generationId] and forwards the object as a whole. *)
Record PlaybookGenerationResponseParams : Type := mkResponse {
  r_playbook : string;
  r_outline : option string;
  r_generationId : string
}.

(** [IError] is declared in [./utils/errors]; the file reads [message] and
    [detail], both of which may be missing.  [isError(response)] is the
    right injection of [PlaybookGenerationResponseParams + IError]. *)
Record IError : Type := mkError {
  e_code : string;
  e_message : option string;
  e_detail : option string
}.

(** The argument of [apiInstance.playbookGenerationRequest]. *)
Record GenerationRequest : Type := mkRequest {
  q_text : jsval;
  q_outline : jsval;
  q_createOutline : bool;
  q_generationId : jsval;
  q_wizardId : option string
}.

(** A message received from the webview. *)
Record message : Type := mkMessage {
  m_command : jsval;
  m_text : jsval;
  m_outline : jsval;
  m_playbook : jsval;
  m_generationId : jsval;
  m_toPage : jsval
}.

(** A message posted to the webview. *)
Inductive webview_message : Type :=
| startSpinner
| stopSpinner
| init
| outline_generated (response : PlaybookGenerationResponseParams)
| outline_given (playbook outline generationId : jsval)
| playbook_ready (playbook generationId outline html : jsval)
| resetOutline_confirmed.

(** What [vscode.workspace.openTextDocument] resolves to. *)
Inductive document : Type := Document (language : string) (content : jsval).

(** The one member of [LightSpeedCommands] the file uses. *)
Inductive host_command : Type := LIGHTSPEED_FETCH_TRAINING_MATCHES.

(** Host and service calls that return a promise, indexed by the type of
    the value the promise resolves to. *)
Inductive async : Type -> Type :=
| isAuthenticated : async bool
| showErrorMessage (text : string) : async (option string)
| showInformationMessage (text : string) (modal : bool) (detail : string)
    (items : list string) : async (option string)
| playbookGenerationRequest (q : GenerationRequest)
    : async (PlaybookGenerationResponseParams + IError)
| showPopup (e : IError) : async bool
| openTextDocument (language : string) (content : jsval) : async document
| showTextDocument (doc : document) : async unit
| feedbackRequest (a : PlaybookGenerationAction) (test_token : bool) : async unit
| executeCommand (c : host_command) : async unit.

(** Everything the extension does to the outside world, in order. *)
Inductive effect : Type :=
| Began {T : Type} (c : async T)
| createWebviewPanel (p : panel)
| onDidDispose_set (p : panel)
| onDidReceiveMessage_set (p : panel)
| title_set (p : panel) (title : string)
| html_set (p : panel)
| postMessage (p : panel) (m : webview_message)
| panel_disposed (p : panel)
| suggestionDetails_set (suggestionId suggestion : jsval).

(* ===================================================================== *)
(** * Programs                                                           *)
(* ===================================================================== *)

(** Operations that complete within the current turn: reading and
    writing the two module-level variables, [uuidv4()], reading
    [process.env], and host calls whose result, if any, is not waited
    for ([emit]), one of which may throw ([emit_throwing]). *)
Inductive sync : Type -> Type :=
| get_wizardId : sync (option string)
| set_wizardId (v : option string) : sync unit
| get_currentPage : sync jsval
| set_currentPage (v : jsval) : sync unit
| uuidv4 : sync string
| env_TEST_LIGHTSPEED_ACCESS_TOKEN : sync bool
| emit (e : effect) : sync unit
| emit_throwing (e : effect) : sync (option exn)
| new_panel : sync panel
| dispose_panel (p : panel) : sync bool.

(** An [async] function body.
    - [Sync]: an operation of the current turn;
    - [Await]: issue a host call and suspend until its promise settles;
    - [Spawn q k]: call the async function [q] without awaiting it ([q]
      runs up to its first suspension, then [k] goes on);
    - [Throw]: an exception (a rejected promise at the top of a task). *)
Inductive prog (R : Type) : Type :=
| Ret (r : R)
| Throw (e : exn)
| Sync {X : Type} (c : sync X) (k : X -> prog R)
| Await {T : Type} (c : async T) (k : result T -> prog R)
| Spawn (q : prog unit) (k : prog R).
Arguments Throw {R} e.

Fixpoint pbind {A B : Type} (p : prog A) (f : A -> prog B) : prog B :=
  match p with
  | Ret a => f a
  | Throw e => Throw e
  | Sync c k => Sync c (fun x => pbind (k x) f)
  | Await c k => Await c (fun r => pbind (k r) f)
  | Spawn q k => Spawn q (pbind k f)
  end.

#[export] Instance Monad_prog : Monad prog :=
  {| ret := fun _ a => Ret a; bind := fun _ _ p f => pbind p f |}.

(** [try { p } catch (e) { h e }]. *)
Fixpoint try_catch {R : Type} (p : prog R) (h : exn -> prog R) : prog R :=
  match p with
  | Ret r => Ret r
  | Throw e => h e
  | Sync c k => Sync c (fun x => try_catch (k x) h)
  | Await c k => Await c (fun r => try_catch (k r) h)
  | Spawn q k => Spawn q (try_catch k h)
  end.

(** [try { p } finally { f }]. *)
Fixpoint try_finally {R : Type} (p : prog R) (f : prog unit) : prog R :=
  match p with
  | Ret r => pbind f (fun _ => Ret r)
  | Throw e => pbind f (fun _ => Throw e)
  | Sync c k => Sync c (fun x => try_finally (k x) f)
  | Await c k => Await c (fun r => try_finally (k r) f)
  | Spawn q k => Spawn q (try_finally k f)
  end.

(** One operation, as a program. *)
Definition op {X : Type} (c : sync X) : prog X := Sync c (fun x => Ret x).

(** [await c]: the value on fulfilment, an exception on rejection. *)
Definition await {T : Type} (c : async T) : prog T :=
  Await c (fun r => match r with Resolved t => Ret t | Rejected e => Throw e end).

(** A call whose promise is dropped. *)
Definition fire {T : Type} (c : async T) : prog unit := op (emit (Began c)).

(** A dropped-promise call that may also throw before returning. *)
Definition fire_throwing {T : Type} (c : async T) : prog unit :=
  r <- op (emit_throwing (Began c)) ;;
  match r with Some e => Throw e | None => Ret tt end.

(** [panel.webview.postMessage(m)]. *)
Definition post (p : panel) (m : webview_message) : prog unit :=
  op (emit (postMessage p m)).

(* ===================================================================== *)
(** * The wizard: [playbookGeneration.ts]                                *)
(* ===================================================================== *)

Section Code.

(** [UNKNOWN_ERROR] is imported from [./utils/errors]; its text is not
    part of this file, so it stays a parameter. *)
Variable UNKNOWN_ERROR : string.

(** [async function openNewPlaybookEditor(playbook)]. *)
Definition openNewPlaybookEditor (playbook : jsval) : prog unit :=
  doc <- await (openTextDocument "ansible" playbook) ;;
  await (showTextDocument doc).

(** [function contentMatch(generationId, playbook)]. *)
Definition contentMatch (generationId playbook : jsval) : prog unit :=
  op (emit (suggestionDetails_set generationId playbook)) ;;
  fire (executeCommand LIGHTSPEED_FETCH_TRAINING_MATCHES).

(** [async function sendActionEvent(action, toPage)]. *)
Definition sendActionEvent (action : WizardGenerationActionType)
    (toPage : jsval) : prog unit :=
  w <- op get_wizardId ;;
  if truthy_id w then
    fromPage <- op get_currentPage ;;
    op (set_currentPage toPage) ;;
    try_catch
      (tok <- op env_TEST_LIGHTSPEED_ACCESS_TOKEN ;;
       fire_throwing
         (feedbackRequest
            (mkAction (match w with Some s => s | None => EmptyString end)
                      action fromPage toPage)
            tok))
      (fun e => fire (showErrorMessage (message_of e)))
  else ret tt.

(** [async function generatePlaybook(apiInstance, text, outline,
    generationId, panel)]. *)
Definition generatePlaybook (text outline generationId : jsval)
    (panel : panel) : prog (PlaybookGenerationResponseParams + IError) :=
  try_finally
    (post panel startSpinner ;;
     let createOutline := is_undefined outline in
     w <- op get_wizardId ;;
     response <- await (playbookGenerationRequest
                          (mkRequest text outline createOutline generationId w)) ;;
     ret response)
    (post panel stopSpinner).

(** The template string built from an error response. *)
Definition errorMessage (response : IError) : string :=
  ((match e_message response with Some m => m | None => UNKNOWN_ERROR end)
   ++ " " ++
   (match e_detail response with Some d => d | None => EmptyString end))%string.

(** The callback given to [panel.onDidDispose]. *)
Definition onDidDispose : prog unit :=
  sendActionEvent CLOSE_CANCEL JUndefined ;;
  op (set_wizardId None).

(** [panel.dispose()]: the host disposes a panel once and then fires its
    [onDidDispose] listeners. *)
Definition panel_dispose (panel : panel) : prog unit :=
  fired <- op (dispose_panel panel) ;;
  if (fired : bool) then Spawn onDidDispose (Ret tt) else ret tt.

(** The callback of [generatePlaybook(...).then(...)] in [case "outline"]. *)
Definition outline_then (panel : panel)
    (response : PlaybookGenerationResponseParams + IError) : prog unit :=
  match response with
  | inr err =>
      shown <- await (showPopup err) ;;
      if negb shown then fire (showErrorMessage (errorMessage err)) else ret tt
  | inl r => post panel (outline_generated r)
  end.

Definition case_outline (panel : panel) (message : message) : prog unit :=
  try_catch
    (if negb (truthy (m_outline message)) then
       Spawn (response <- generatePlaybook (m_text message) JUndefined
                            (m_generationId message) panel ;;
              outline_then panel response)
             (Ret tt)
     else
       post panel (outline_given (m_playbook message) (m_outline message)
                                 (m_generationId message)))
    (fun e => fire (showErrorMessage (message_of e))).

(** The end of [case "generateCode"], from [const html = undefined] on. *)
Definition generateCode_finish (panel : panel)
    (playbook generationId outline : jsval) : prog unit :=
  let html := JUndefined in
  post panel (playbook_ready playbook generationId outline html) ;;
  contentMatch generationId playbook.

(** [case "generateCode"]; [None] stands for the two [break]s inside the
    [if (!playbook)] block. *)
Definition case_generateCode (panel : panel) (message : message) : prog unit :=
  let playbook := m_playbook message in
  let generationId := m_generationId message in
  let outline := m_outline message in
  r <- (if negb (truthy playbook) then
          try_catch
            (response <- generatePlaybook (m_text message) (m_outline message)
                           (m_generationId message) panel ;;
             match response with
             | inr err =>
                 fire (showErrorMessage (errorMessage err)) ;;
                 ret None
             | inl r =>
                 ret (Some (JStr (r_playbook r), JStr (r_generationId r)))
             end)
            (fun e => fire (showErrorMessage (message_of e)) ;; ret None)
        else ret (Some (playbook, generationId))) ;;
  match r with
  | None => ret tt
  | Some (playbook, generationId) =>
      generateCode_finish panel playbook generationId outline
  end.

Definition case_transition (message : message) : prog unit :=
  sendActionEvent TRANSITION (m_toPage message).

(** [case "openEditor"] once the editor is open. *)
Definition openEditor_accept (panel : panel) : prog unit :=
  sendActionEvent CLOSE_ACCEPT JUndefined ;;
  op (set_wizardId None) ;;
  panel_dispose panel.

Definition case_openEditor (panel : panel) (message : message) : prog unit :=
  openNewPlaybookEditor (m_playbook message) ;;
  openEditor_accept panel.

Definition case_resetOutline (panel : panel) : prog unit :=
  Spawn (value <- await (showInformationMessage "Are you sure?" true
                           "Resetting the outline will loose your changes."
                           ["Ok"]) ;;
         if chose value "Ok" then post panel resetOutline_confirmed
         else ret tt)
        (Ret tt).

(** The five [case] labels of the switch. *)
Definition commands : list string :=
  ["outline"; "generateCode"; "transition"; "openEditor"; "resetOutline"].

(** The callback given to [panel.webview.onDidReceiveMessage]. *)
Definition onDidReceiveMessage (panel : panel) (message : message) : prog unit :=
  let command := m_command message in
  if is_string command "outline" then case_outline panel message
  else if is_string command "generateCode" then case_generateCode panel message
  else if is_string command "transition" then case_transition message
  else if is_string command "openEditor" then case_openEditor panel message
  else if is_string command "resetOutline" then case_resetOutline panel
  else ret tt.

(** [export async function showPlaybookGenerationPage(extensionUri)]. *)
Definition showPlaybookGenerationPage : prog unit :=
  authenticated <- await isAuthenticated ;;
  if negb authenticated then
    _ <- await (showErrorMessage
                  "Log in to Ansible Lightspeed to use this feature.") ;;
    ret tt
  else
    panel <- op new_panel ;;
    op (emit (onDidDispose_set panel)) ;;
    u <- op uuidv4 ;;
    op (set_wizardId (Some u)) ;;
    op (emit (onDidReceiveMessage_set panel)) ;;
    op (emit (title_set panel "Ansible Lightspeed")) ;;
    op (emit (html_set panel)) ;;
    post panel init ;;
    sendActionEvent OPEN (JNum 1).

End Code.

(* ===================================================================== *)
(** * One turn of the event loop                                         *)
(* ===================================================================== *)

(** The two module-level variables, the panels the host keeps, and the
    effects so far (oldest first). *)
Record mstate : Type := mkState {
  wizardId : option string;
  currentPage : jsval;
  live : list panel;
  next_panel : panel;
  log : list effect
}.

(** What the surroundings decide during one turn: the identifier
    [uuidv4()] returns, whether [TEST_LIGHTSPEED_ACCESS_TOKEN] is set, and
    whether [feedbackRequest] throws. *)
Record oracle : Type := mkOracle {
  o_uuid : string;
  o_test_token : bool;
  o_feedback_throws : option exn
}.

(** A version-4 UUID is 36 characters long; only "not empty" matters. *)
Definition oracle_ok (o : oracle) : bool := negb (o_uuid o =? EmptyString).

(** A suspended async function: the call it awaits and what it does next. *)
Record task : Type := mkTask {
  t_type : Type;
  t_call : async t_type;
  t_resume : result t_type -> prog unit
}.

Inductive stop (R : Type) : Type :=
| Done (r : R)
| Failed (e : exn)
| Suspended {T : Type} (c : async T) (k : result T -> prog R).
Arguments Failed {R} e.

Definition record (e : effect) (s : mstate) : mstate :=
  mkState (wizardId s) (currentPage s) (live s) (next_panel s) (log s ++ [e]).

Definition is_live (p : panel) (l : list panel) : bool :=
  existsb (Nat.eqb p) l.
Arguments is_live : simpl never.

Definition without (p : panel) (l : list panel) : list panel :=
  filter (fun q => negb (Nat.eqb p q)) l.

Definition sync_sem {X : Type} (c : sync X) (o : oracle) (s : mstate)
    : X * mstate :=
  match c in sync X return X * mstate with
  | get_wizardId => (wizardId s, s)
  | set_wizardId v =>
      (tt, mkState v (currentPage s) (live s) (next_panel s) (log s))
  | get_currentPage => (currentPage s, s)
  | set_currentPage v =>
      (tt, mkState (wizardId s) v (live s) (next_panel s) (log s))
  | uuidv4 => (o_uuid o, s)
  | env_TEST_LIGHTSPEED_ACCESS_TOKEN => (o_test_token o, s)
  | emit e => (tt, record e s)
  | emit_throwing e => (o_feedback_throws o, record e s)
  | new_panel =>
      let p := next_panel s in
      (p, mkState (wizardId s) (currentPage s) (live s ++ [p]) (S p)
                  (log s ++ [createWebviewPanel p]))
  | dispose_panel p =>
      if is_live p (live s) then
        (true, mkState (wizardId s) (currentPage s) (without p (live s))
                       (next_panel s) (log s ++ [panel_disposed p]))
      else (false, s)
  end.

(** A task that stopped at an [await] waits for its promise; one that
    returned or threw is gone (a rejection nobody handles). *)
Definition parked (st : stop unit) : list task :=
  match st with
  | Suspended c k => [mkTask c k]
  | _ => []
  end.

(** Run a program until it returns, throws or suspends.  The result also
    lists the tasks it spawned that are now waiting, oldest first. *)
Fixpoint run {R : Type} (p : prog R) (o : oracle) (s : mstate)
    : mstate * list task * stop R :=
  match p with
  | Ret r => (s, [], Done r)
  | Throw e => (s, [], Failed e)
  | Sync c k => let (x, s') := sync_sem c o s in run (k x) o s'
  | Await c k => (record (Began c) s, [], Suspended c k)
  | Spawn q k =>
      let '(s1, ts1, st1) := run q o s in
      let '(s2, ts2, st2) := run k o s1 in
      (s2, ts1 ++ parked st1 ++ ts2, st2)
  end.

(* ===================================================================== *)
(** * The event loop                                                     *)
(* ===================================================================== *)

Record world : Type := mkWorld {
  ms : mstate;
  pending : list task
}.

Definition world0 : world :=
  mkWorld (mkState None JUndefined [] 0 []) [].

(** A top-level task: a command or an event callback. *)
Definition start (p : prog unit) (o : oracle) (s : mstate)
    (waiting : list task) : world :=
  let '(s', ts, st) := run p o s in
  mkWorld s' (waiting ++ ts ++ parked st).

(** The value a promise settles with, as the surroundings deliver it. *)
Inductive settlement : Type :=
| with_bool (r : result bool)
| with_choice (r : result (option string))
| with_generation (r : result (PlaybookGenerationResponseParams + IError))
| with_document (r : result document)
| with_unit (r : result unit).

Definition coerce {T : Type} (c : async T) (a : settlement)
    : option (result T) :=
  match c in async T return option (result T) with
  | isAuthenticated => match a with with_bool r => Some r | _ => None end
  | showErrorMessage _ => match a with with_choice r => Some r | _ => None end
  | showInformationMessage _ _ _ _ =>
      match a with with_choice r => Some r | _ => None end
  | playbookGenerationRequest _ =>
      match a with with_generation r => Some r | _ => None end
  | showPopup _ => match a with with_bool r => Some r | _ => None end
  | openTextDocument _ _ => match a with with_document r => Some r | _ => None end
  | showTextDocument _ => match a with with_unit r => Some r | _ => None end
  | feedbackRequest _ _ => match a with with_unit r => Some r | _ => None end
  | executeCommand _ => match a with with_unit r => Some r | _ => None end
  end.

Inductive event : Type :=
| Command (o : oracle)
| Received (p : panel) (m : message) (o : oracle)
| Closed (p : panel) (o : oracle)
| Settled (i : nat) (a : settlement) (o : oracle).

Definition oracle_of (e : event) : oracle :=
  match e with
  | Command o | Received _ _ o | Closed _ o | Settled _ _ o => o
  end.

Definition drop_nth {A : Type} (i : nat) (l : list A) : list A :=
  firstn i l ++ skipn (S i) l.

Section Loop.

Variable UNKNOWN_ERROR : string.

(** One event.  [None]: not something the surroundings can do (a message
    from or the closing of a panel that is gone, a promise that is not
    pending, a value of the wrong type, an empty UUID). *)
Definition step (w : world) (e : event) : option world :=
  if negb (oracle_ok (oracle_of e)) then None else
  match e with
  | Command o =>
      Some (start showPlaybookGenerationPage o (ms w) (pending w))
  | Received p m o =>
      if is_live p (live (ms w))
      then Some (start (onDidReceiveMessage UNKNOWN_ERROR p m) o (ms w) (pending w))
      else None
  | Closed p o =>
      if is_live p (live (ms w))
      then
        let s := ms w in
        let s' := mkState (wizardId s) (currentPage s) (without p (live s))
                          (next_panel s) (log s) in
        Some (start onDidDispose o s' (pending w))
      else None
  | Settled i a o =>
      match nth_error (pending w) i with
      | Some t =>
          match coerce (t_call t) a with
          | Some r => Some (start (t_resume t r) o (ms w) (drop_nth i (pending w)))
          | None => None
          end
      | None => None
      end
  end.

Fixpoint steps (w : world) (es : list event) : option world :=
  match es with
  | [] => Some w
  | e :: es' =>
      match step w e with
      | Some w' => steps w' es'
      | None => None
      end
  end.

End Loop.

(** Generation requests that are in flight. *)
Definition is_generation (t : task) : bool :=
  match t_call t with
  | playbookGenerationRequest _ => true
  | _ => false
  end.

Definition in_flight (w : world) : nat :=
  length (filter is_generation (pending w)).

(** The world after a list of events ([world0] if they cannot happen). *)
Definition after (unk : string) (es : list event) : world :=
  match steps unk world0 es with
  | Some w => w
  | None => world0
  end.

(* ===================================================================== *)
(** * Reading runs                                                       *)
(* ===================================================================== *)

(** Resume a suspended program with the value its promise settled with,
    in the state the other turns have left. *)
Definition resume {R : Type} (st : stop R) (a : settlement) (o : oracle)
    (s : mstate) : option (mstate * list task * stop R) :=
  match st with
  | Suspended c k =>
      match coerce c a with
      | Some r => Some (run (k r) o s)
      | None => None
      end
  | _ => None
  end.

(** The texts passed to [showErrorMessage]. *)
Definition error_text (e : effect) : option string :=
  match e with
  | Began c =>
      match c with
      | showErrorMessage text => Some text
      | _ => None
      end
  | _ => None
  end.

Fixpoint errors_shown (l : list effect) : list string :=
  match l with
  | [] => []
  | e :: l' =>
      match error_text e with
      | Some text => text :: errors_shown l'
      | None => errors_shown l'
      end
  end.

(** The action events passed to [feedbackRequest]. *)
Definition feedback_of (e : effect) : option PlaybookGenerationAction :=
  match e with
  | Began c =>
      match c with
      | feedbackRequest a _ => Some a
      | _ => None
      end
  | _ => None
  end.

Fixpoint feedback_sent (l : list effect) : list PlaybookGenerationAction :=
  match l with
  | [] => []
  | e :: l' =>
      match feedback_of e with
      | Some a => a :: feedback_sent l'
      | None => feedback_sent l'
      end
  end.

Definition is_close (a : PlaybookGenerationAction) : bool :=
  match a_action a with
  | CLOSE_CANCEL | CLOSE_ACCEPT => true
  | _ => false
  end.

(** What [sendActionEvent] shows when [feedbackRequest] throws. *)
Definition feedback_failure (o : oracle) : list effect :=
  match o_feedback_throws o with
  | Some e => [Began (showErrorMessage (message_of e))]
  | None => []
  end.

(* ===================================================================== *)
(** * A logic of turns                                                   *)
(* ===================================================================== *)

Section TurnLogic.

(** [Inv] holds between turns; [Post s0 s] relates the states at the two
    ends of a turn; [later s s'] says that [s'] may come after [s]. *)
Variable Inv : mstate -> Prop.
Variable Post : mstate -> mstate -> Prop.
Variable later : mstate -> mstate -> Prop.

(** [wp p o Q s]: started in [s], the program [p] reaches the point where
    it stops for now in a state satisfying [Q]; and whenever one of its
    awaits is resumed, in a later state [s0] satisfying [Inv], the turn
    that follows satisfies [Post s0]. *)
Fixpoint wp {R : Type} (p : prog R) (o : oracle) (Q : mstate -> Prop)
    (s : mstate) : Prop :=
  match p with
  | Ret _ => Q s
  | Throw _ => Q s
  | Sync c k => wp (k (fst (sync_sem c o s))) o Q (snd (sync_sem c o s))
  | Await c k =>
      Q (record (Began c) s) /\
      forall r o' s0, oracle_ok o' = true -> later s s0 -> Inv s0 ->
                      wp (k r) o' (Post s0) s0
  | Spawn q k => wp q o (wp k o Q) s
  end.

Definition resumable {R T : Type} (s : mstate) (k : result T -> prog R) : Prop :=
  forall r o s0, oracle_ok o = true -> later s s0 -> Inv s0 ->
                 wp (k r) o (Post s0) s0.

Definition task_ok (s : mstate) (t : task) : Prop := resumable s (t_resume t).

Definition stop_ok {R : Type} (s : mstate) (st : stop R) : Prop :=
  match st with
  | Suspended _ k => resumable s k
  | _ => True
  end.

End TurnLogic.

(** Between turns the page is recorded only while an identifier is, and
    an identifier that is set is not empty. *)
Definition page_inv (s : mstate) : Prop :=
  truthy_id (wizardId s) = false ->
  wizardId s = None /\ currentPage s = JUndefined.

(** Panels are numbered in the order of their creation. *)
Definition fresh_inv (s : mstate) : Prop :=
  forall q, In q (live s) -> q < next_panel s.

(** While no second panel has been created, the identifier is set exactly
    when the one panel is live. *)
Definition single_inv (s : mstate) : Prop :=
  next_panel s <= 1 ->
  (wizardId s = None /\ live s = []) \/ (wizardId s <> None /\ live s = [0]).

Definition inv (s : mstate) : Prop := page_inv s /\ fresh_inv s /\ single_inv s.

(** A turn keeps the identifier and the panels, or closes a wizard, or
    opens one. *)
Inductive turn_kind (s0 s : mstate) : Prop :=
| turn_keeps :
    wizardId s = wizardId s0 -> live s = live s0 -> turn_kind s0 s
| turn_closes :
    wizardId s = None -> currentPage s = JUndefined ->
    incl (live s) (live s0) -> turn_kind s0 s
| turn_opens (p : panel) :
    wizardId s <> None -> live s = live s0 ++ [p] -> turn_kind s0 s.

Definition turn_post (s0 s : mstate) : Prop := inv s /\ turn_kind s0 s.

Definition older (s s' : mstate) : Prop := next_panel s <= next_panel s'.

Definition world_ok (w : world) : Prop :=
  inv (ms w) /\ Forall (task_ok inv turn_post older (ms w)) (pending w).

(* ===================================================================== *)
(** * A session used in the examples                                     *)
(* ===================================================================== *)

Definition oracleA : oracle :=
  mkOracle "5f0c2d4e-8a1b-4c3d-9e2f-a1b2c3d4e5f6" false None.

Definition oracleB : oracle :=
  mkOracle "0a9b8c7d-6e5f-4a3b-8c2d-1e0f9a8b7c6d" false None.

(** A message from the webview with the given command; the prompt is
    filled in, the outline and the playbook are not. *)
Definition from_webview (command : string) : message :=
  mkMessage (JStr command) (JStr "install nginx") JUndefined JUndefined
            (JStr "gen-1") (JNum 2).

(** The command runs and the user turns out to be logged in. *)
Definition opening (o : oracle) : list event :=
  [Command o; Settled 0 (with_bool (Resolved true)) o].

(** A text for [UNKNOWN_ERROR]. *)
Definition unknown : string := "An unknown error occurred.".

Definition quota_error : IError :=
  mkError "quota" (Some "Quota exceeded") None.

(** The events of the examples. *)
Definition one_outline : list event :=
  opening oracleA ++ [Received 0 (from_webview "outline") oracleA].

Definition two_outlines : list event :=
  one_outline ++ [Received 0 (from_webview "outline") oracleA].

Definition outline_error_popup : list event :=
  one_outline ++
  [Settled 0 (with_generation (Resolved (inr quota_error))) oracleA;
   Settled 0 (with_bool (Resolved true)) oracleA].

Definition one_transition : list event :=
  opening oracleA ++ [Received 0 (from_webview "transition") oracleA].

Definition two_panels_first_closed : list event :=
  opening oracleA ++ opening oracleB ++ [Closed 0 oracleA].

Definition second_panel_accepted : list event :=
  two_panels_first_closed ++
  [Received 1 (from_webview "openEditor") oracleB;
   Settled 0 (with_document (Resolved (Document "ansible" JUndefined))) oracleB;
   Settled 0 (with_unit (Resolved tt)) oracleB].

(** An [outline] message sent after the user has edited the outline. *)
Definition outline_edited : message :=
  mkMessage (JStr "outline") (JStr "install nginx") (JStr "1. Install nginx")
            (JStr "- hosts: all") (JStr "gen-1") JUndefined.

(* ===================================================================== *)
(** * The stream of action events                                        *)
(* ===================================================================== *)

(** [a === b] on primitive values. *)
Definition jsval_eqb (a b : jsval) : bool :=
  match a, b with
  | JUndefined, JUndefined => true
  | JNull, JNull => true
  | JBool x, JBool y => Bool.eqb x y
  | JNum x, JNum y => (x =? y)%Z
  | JStr x, JStr y => (x =? y)%string
  | _, _ => false
  end.

(** What a reader of the action events knows: the identifier of the
    wizard that is open, if one is, and the page it is on. *)
Definition session : Type := (option string * jsval)%type.

Definition no_session : session := (None, JUndefined).

Definition same_id (w : option string) (u : string) : bool :=
  match w with Some v => (v =? u)%string | None => false end.

(** One event, read after the others.  An event fits if its identifier
    is not empty and its [fromPage] is the page the reader is on, and
    - [OPEN] goes to page 1 and starts a session with its identifier;
    - [TRANSITION] belongs to the open session and moves to [toPage];
    - a close event belongs to the open session, has no [toPage], and
      ends the session. *)
Definition session_step (st : session) (a : PlaybookGenerationAction)
    : option session :=
  if negb (jsval_eqb (a_fromPage a) (snd st))
     || (a_wizardId a =? EmptyString)%string
  then None
  else
    match a_action a with
    | OPEN =>
        if jsval_eqb (a_toPage a) (JNum 1)
        then Some (Some (a_wizardId a), a_toPage a) else None
    | TRANSITION =>
        if same_id (fst st) (a_wizardId a)
        then Some (fst st, a_toPage a) else None
    | CLOSE_CANCEL | CLOSE_ACCEPT =>
        if same_id (fst st) (a_wizardId a) && is_undefined (a_toPage a)
        then Some (None, JUndefined) else None
    end.

Fixpoint session_replay (st : session) (l : list PlaybookGenerationAction)
    : option session :=
  match l with
  | [] => Some st
  | a :: l' =>
      match session_step st a with
      | Some st' => session_replay st' l'
      | None => None
      end
  end.

(** The events sent so far tell the two variables. *)
Definition told (s : mstate) : Prop :=
  session_replay no_session (feedback_sent (log s))
  = Some (wizardId s, currentPage s).

Definition inv2 (s : mstate) : Prop := inv s /\ told s.

Definition turn_post2 (s0 s : mstate) : Prop := turn_post s0 s /\ told s.

Definition world_ok2 (w : world) : Prop :=
  inv2 (ms w) /\ Forall (task_ok inv2 turn_post2 older (ms w)) (pending w).

(* ===================================================================== *)
(** * The spinner                                                        *)
(* ===================================================================== *)

(** [+1] for a posted [startSpinner], [-1] for a posted [stopSpinner]. *)
Definition spin_of (e : effect) : Z :=
  match e with
  | postMessage _ startSpinner => 1
  | postMessage _ stopSpinner => -1
  | _ => 0
  end%Z.

(** Spinners started and not yet stopped, over all panels. *)
Fixpoint spinning (l : list effect) : Z :=
  match l with
  | [] => 0
  | e :: l' => spin_of e + spinning l'
  end%Z.

Definition awaits_generation {T : Type} (c : async T) : Z :=
  match c with
  | playbookGenerationRequest _ => 1
  | _ => 0
  end%Z.

Definition spin_sync {X : Type} (c : sync X) : Z :=
  match c with
  | emit e => spin_of e
  | emit_throwing e => spin_of e
  | _ => 0%Z
  end.

(** [balanced p n]: in the turn it runs in, [p] starts [n] more spinners
    than it stops, not counting one for each generation request it
    leaves waiting; and when a request it waits for settles, what runs
    next stops that request's spinner.  Functions called without [await]
    are balanced on their own. *)
Fixpoint balanced {R : Type} (p : prog R) (n : Z) : Prop :=
  match p with
  | Ret _ => n = 0%Z
  | Throw _ => n = 0%Z
  | Sync c k => forall x, balanced (k x) (n - spin_sync c)%Z
  | Await c k =>
      n = (- awaits_generation c)%Z /\
      forall r, balanced (k r) (- awaits_generation c)%Z
  | Spawn q k => balanced q 0%Z /\ balanced k n
  end.

Definition task_balanced (t : task) : Prop :=
  forall r, balanced (t_resume t r) (- awaits_generation (t_call t))%Z.

Definition stop_balanced {R : Type} (st : stop R) : Prop :=
  match st with
  | Suspended c k => forall r, balanced (k r) (- awaits_generation c)%Z
  | _ => True
  end.

Definition stop_weight {R : Type} (st : stop R) : Z :=
  match st with
  | Suspended c _ => awaits_generation c
  | _ => 0%Z
  end.

Definition generations (ts : list task) : Z :=
  Z.of_nat (length (filter is_generation ts)).

Definition world_balanced (w : world) : Prop :=
  spinning (log (ms w)) = generations (pending w) /\
  Forall task_balanced (pending w).

(* ===================================================================== *)
(** * The bootstrap script                                               *)
(* ===================================================================== *)

Module Bootstrap.

Inductive level : Type := notice | warning | error.

(** What the script does, in order: the lines [log] prints on stderr,
    with their text as it is written in the script (substitutions not
    expanded), and the commands it runs on a line of their own.
    Commands run inside a test or a substitution are read through
    [Env]; builtins that only print ([echo], [printf]) are left out. *)
Inductive action : Type :=
| Logged (l : level) (text : string)
| Ran (command : string).

(** How the script ends: an [exit] statement; a command whose failure
    ends the script under [set -e], with the status it leaves; the
    expansion of an unset variable under [set -u], which leaves with
    status 1; or it does not end, waiting in its one loop for something
    that never happens. *)
Inductive outcome : Type :=
| Exit (code : nat)
| Abort (command : string) (status : nat)
| Unset (variable : string)
| Waits (condition : string).

(** The machine the script runs on: the variables it reads, the answers
    of the tests it makes, each at the place where it makes it, and the
    exit status of every command it runs for its effect. *)
Record Env : Type := mkEnv {
  (* read as [${X:-}] only: unset is the empty string *)
  CI : string;
  SKIP_PODMAN : string;
  GIT_NOT_CONFIGURED : string;
  (* read as [${OS:-}] and, on line 156, as [${OS}]; [${HOME}];
     [None] when unset *)
  OS : option string;
  HOME : option string;
  (* [pwd -P] and [uname] *)
  pwd_P : string;
  uname : string;
  (* the exit status of a command that is run for its effect, given
     what has been done before *)
  status : list action -> string -> nat;
  (* [-f /usr/bin/apt-get]; some package of [DEBS] is not installed *)
  apt_get_present : bool;
  debs_missing : bool;
  (* [git config user.email], [git config user.name] succeed *)
  git_user_email : bool;
  git_user_name : bool;
  (* [command -v podman]; [podman machine ls] lists a default machine,
     a running machine *)
  podman_present : bool;
  podman_machine_listed : bool;
  podman_machine_running : bool;
  (* [grep -qi microsoft /proc/version] *)
  proc_version_microsoft : bool;
  (* [[ "${PATH}" == *"${HOME}/.local/bin"* ]] *)
  PATH_has_local_bin : bool;
  (* the [python3 -c ... S_IWOTH] test fails *)
  world_writable : bool;
  (* [command -v gh], [command -v dnf]; the output of
     [command -v npm || true] on line 172 *)
  gh_present : bool;
  dnf_present : bool;
  npm_path : string;
  (* [-d "${VIRTUAL_ENV}"]; whether ["$(which python3)"] matches the
     pattern [${VIRTUAL_ENV}/bin/python3] (unquoted, so bash matches it
     as a pattern) on line 187 and again on line 191 *)
  venv_dir_exists : bool;
  python3_in_virtualenv : bool;
  python3_in_virtualenv_recreated : bool;
  (* on CI: [command -v ansible], the lines of [which -a ansible] after
     [pipx uninstall]; the same for ansible-lint; [-d ~/.ansible] *)
  ansible_on_PATH : bool;
  which_a_ansible : nat;
  ansible_lint_on_PATH : bool;
  which_a_ansible_lint : nat;
  home_ansible_dir : bool;
  (* [command -v] in the loop over the two tools *)
  command_v : string -> option string;
  (* [command -v npm] on line 255; [test -w "$(npm config get prefix)"];
     [-f yarn.lock]; [command -v yarn] on line 267 and on line 328 *)
  npm_present : bool;
  npm_prefix_writable : bool;
  yarn_lock : bool;
  yarn_present : bool;
  yarn_present_at_install : bool;
  (* [command -v "${1:-}"] inside [get_version], by the arguments of the
     call; what [get_version podman || echo null] prints when podman is
     found *)
  get_version_finds : string -> bool;
  podman_version : string;
  (* [podman machine ls --format '{{.Running}}']; the number of rounds
     of the loop until the started machine reports [true], [None] if it
     never does *)
  podman_machine_ls_running : string;
  podman_machine_wait : option nat
}.

Definition sh (A : Type) : Type := list action -> list action * (A + outcome).

#[export] Instance Monad_sh : Monad sh :=
  {| ret := fun _ a t => (t, inl a);
     bind := fun _ _ m f t =>
       let (t', r) := m t in
       match r with
       | inl a => f a t'
       | inr o => (t', inr o)
       end |}.

Definition exit {A : Type} (code : nat) : sh A := fun t => (t, inr (Exit code)).

Definition say (l : level) (text : string) : sh unit :=
  fun t => (t ++ [Logged l text], inl tt).

(** [log]: two arguments, the first one of three words; anything else
    reports the mistake through [log error] and leaves with status 2. *)
Definition log (args : list string) : sh unit :=
  match args with
  | [l; text] =>
      if l =? "notice" then say notice text
      else if l =? "warning" then say warning text
      else if l =? "error" then say error text
      else
        say error "log first argument must be 'notice', 'warning' or 'error', not $1." ;;
        exit 2
  | _ =>
      say error "Incorrect call ($*), use: log [notice|warning|error] 'message'." ;;
      exit 2
  end.

(** [${CMD%%/out*}]: the text before the first [/out]. *)
Fixpoint before_out (s : string) : string :=
  if String.prefix "/out" s then EmptyString
  else match s with
       | EmptyString => EmptyString
       | String c r => String c (before_out r)
       end.

(** [${X:-}] *)
Definition or_empty (x : option string) : string :=
  match x with
  | Some s => s
  | None => EmptyString
  end.

(** [${X}] under [set -u] *)
Definition expand (name : string) (x : option string) : sh string :=
  match x with
  | Some s => ret s
  | None => fun t => (t, inr (Unset name))
  end.

(** [for x in l; do f x; done] *)
Fixpoint for_each (l : list string) (f : string -> sh unit) : sh unit :=
  match l with
  | [] => ret tt
  | x :: r => f x ;; for_each r f
  end.

(** [n] rounds of a loop body *)
Fixpoint rounds (n : nat) (body : sh unit) : sh unit :=
  match n with
  | 0 => ret tt
  | S k => body ;; rounds k body
  end.

Section Script.

Variable env : Env.

(** A command on a line of its own: its failure ends the script. *)
Definition cmd (c : string) : sh unit :=
  fun t =>
    let t' := t ++ [Ran c] in
    if (status env t c =? 0)%nat then (t', inl tt)
    else (t', inr (Abort c (status env t c))).

(** [c || true], or [c] whose status is only tested. *)
Definition try_cmd (c : string) : sh bool :=
  fun t => (t ++ [Ran c], inl (status env t c =? 0)%nat).

Definition when (b : bool) (body : sh unit) : sh unit :=
  if b then body else ret tt.

(** [get_version] when [command -v "${1:-}"] fails: it complains and
    returns 99. *)
Definition get_version_complains : sh unit :=
  log ["error"; "Got $? while trying to retrieve ${1:-} version"].

(** [$(get_version args)] inside another command: its status is lost,
    only its complaint shows. *)
Definition version_of (args : string) : sh unit :=
  when (negb (get_version_finds env args)) get_version_complains.

(** [X=$(get_version args)] on a line of its own: the status of the
    line is the status of [get_version]. *)
Definition get_version_line (args : string) : sh unit :=
  if get_version_finds env args then cmd ("get_version " ++ args)
  else
    get_version_complains ;;
    fun t => (t, inr (Abort ("get_version " ++ args) 99)).

Definition install_debs : sh unit :=
  when (apt_get_present env)
    (when (debs_missing env)
       (cmd "sudo apt-get update" ;;
        _ <- try_cmd "sudo apt-get remove -y ansible pipx" ;;
        cmd "sudo apt-get install")).

Definition git_not_configured : bool :=
  (GIT_NOT_CONFIGURED env =? "1")
  || negb (git_user_email env && git_user_name env).

Definition check_git : sh unit :=
  when git_not_configured
    (if CI env =? EmptyString then
       log ["error"; "git config user.email or user.name are not configured."] ;;
       exit 40
     else
       cmd "git config user.email ansible-devtools@redhat.com" ;;
       cmd "git config user.name 'Ansible DevTools'").

Definition macos_podman : sh unit :=
  when ((or_empty (OS env) =? "darwin") && negb (SKIP_PODMAN env =? "1"))
    (when (negb (podman_present env))
       (cmd "brew install podman" ;;
        when (negb (podman_machine_listed env)) (cmd "podman machine init") ;;
        when (negb (podman_machine_running env))
          (_ <- try_cmd "qemu-system INVALID_OPTION" ;;
           cmd "podman machine start") ;;
        cmd "podman info" ;;
        cmd "podman run hello-world")).

Definition check_windows : sh bool :=
  (if or_empty (OS env) =? "windows" then
     log ["error"; "You cannot use Windows build tools for development, try WSL."] ;;
     exit 1
   else ret tt) ;;
  if proc_version_microsoft env then
    when (String.prefix "/mnt/" (pwd_P env))
      (log ["warning"; "Under WSL, you must avoid running from mounts (/mnt/*) due to critical performance issues."]) ;;
    ret true
  else ret false.

(** The test on line 134 expands [${HOME}]. *)
Definition check_path : sh unit :=
  _ <- expand "HOME" (HOME env) ;;
  when (negb (PATH_has_local_bin env))
    (log ["warning"; "~/.local/bin was not found in PATH, attempting to add it."] ;;
     cmd "cat >>~/.bashrc").

Definition check_filesystem : sh unit :=
  when (world_writable env)
    (log ["error"; "Cannot run from world-writable filesystem, try moving code to a secured location and read https://github.com/ansible/devtools/wiki/permissions#ansible-filesystem-requirements"] ;;
     exit 100).

(** The notice on line 156 expands [${OS}]. *)
Definition install_gh : sh unit :=
  when (negb (gh_present env))
    (_ <- expand "OS" (OS env) ;;
     log ["notice"; "Trying to install missing gh on ${OS} ..."] ;;
     (if apt_get_present env then
        cmd "curl githubcli-archive-keyring.gpg | sudo dd" ;;
        cmd "sudo chmod go+r githubcli-archive-keyring.gpg" ;;
        cmd "sudo tee /etc/apt/sources.list.d/github-cli.list" ;;
        cmd "sudo apt-get update" ;;
        cmd "sudo apt-get install gh"
      else
        when (dnf_present env) (cmd "sudo dnf install -y gh")) ;;
     ok <- try_cmd "gh --version" ;;
     when (negb ok)
       (log ["warning"; "gh cli not found and it might be needed for some commands."])).

Definition install_npm_on_wsl : sh unit :=
  when (npm_path env =? "/mnt/c/Program Files/nodejs/npm")
    (log ["notice"; "Installing npm ..."] ;;
     cmd "curl -sL https://deb.nodesource.com/setup_16.x | sudo bash" ;;
     cmd "sudo apt-get install nodejs gcc g++ make python3-dev").

Definition setup_virtualenv : sh unit :=
  when (negb (venv_dir_exists env))
    (log ["notice"; "Creating virtualenv ..."] ;;
     cmd "python3 -m venv") ;;
  cmd ". bin/activate" ;;
  when (negb (python3_in_virtualenv env))
    (log ["warning"; "Virtualenv broken, trying to recreate it ..."] ;;
     cmd "python3 -m venv --clear" ;;
     cmd ". bin/activate" ;;
     when (negb (python3_in_virtualenv_recreated env))
       (log ["error"; "Virtualenv still broken."] ;;
        exit 99)).

Definition install_dependencies (WSL : bool) : sh unit :=
  log ["notice"; "Upgrading pip ..."] ;;
  cmd "python3 -m pip install -q -U pip" ;;
  cmd "./tools/get-image-version" ;;
  when (negb (String.prefix "MINGW" (uname env)))
    (log ["notice"; "Installing dependencies from .config/requirements.in loaded from .config/Dockerfile ..."] ;;
     when (or_empty (OS env) =? "darwin")
       (log ["notice"; "MacOS detected, altering CFLAGS to avoid potential build failure due to https://github.com/ansible/pylibssh/issues/207 ..."] ;;
        cmd "brew --prefix") ;;
     if negb WSL then
       log ["notice"; "Ensure python version is recent enough for using latest ansible-core"] ;;
       cmd "python3 -c 'version >= 3.10'" ;;
       cmd "python3 -m pip install -q -r creator-ee/requirements.txt -r .config/requirements.in"
     else
       cmd "python3 -c 'version >= 3.9'" ;;
       cmd "python3 -m pip install -q -r .config/requirements.in").

Definition isolate_on_ci : sh unit :=
  when (negb (CI env =? EmptyString))
    (when (negb (ansible_on_PATH env))
       (log ["warning"; "Attempting to remove pre-installed ansible on CI ..."] ;;
        _ <- try_cmd "pipx uninstall --verbose ansible" ;;
        when (negb (which_a_ansible env =? 1)%nat)
          (log ["error"; "Please ensure there is no preinstalled copy of ansible on CI.\n$(which -a ansible)"] ;;
           exit 66)) ;;
     when (negb (ansible_lint_on_PATH env))
       (log ["warning"; "Attempting to remove pre-installed ansible-lint on CI ..."] ;;
        _ <- try_cmd "pipx uninstall --verbose ansible-lint" ;;
        when (negb (which_a_ansible_lint env =? 1)%nat)
          (log ["error"; "Please ensure there is no preinstalled copy of ansible-lint on CI.\n$(which -a ansible-lint)"] ;;
           exit 67)) ;;
     when (home_ansible_dir env)
       (log ["warning"; "Removing unexpected ~/.ansible folder found on CI to avoid test contamination."] ;;
        cmd "rm -rf ~/.ansible")).

(** One round of [for CMD in ansible ansible-lint].  The assignment
    [CMD=$(command -v $CMD)] is a command of its own: when the tool is
    missing it fails with status 1 and ends the script. *)
Definition check_tool (tool : string) : sh unit :=
  match command_v env tool with
  | None => fun t => (t, inr (Abort ("command -v " ++ tool) 1))
  | Some path =>
      when (negb (before_out path =? pwd_P env))
        (log ["error"; "${CMD} executable is not from our own virtualenv:\n${CMD}"] ;;
         exit 68)
  end.

Definition setup_node : sh unit :=
  when (negb (npm_present env))
    (log ["notice"; "Installing nodejs stable."] ;;
     cmd "asdf install") ;;
  when (negb (npm_prefix_writable env))
    (log ["warning"; "Your npm is not allowed to write to $(npm config get prefix), we will reconfigure its prefix"] ;;
     cmd "npm config set prefix ~/.local/") ;;
  when (yarn_lock env)
    (when (negb (yarn_present env))
       (log ["warning"; "Installing missing yarn"] ;;
        cmd "npm install -g yarn" ;;
        cmd "yarn --version")).

(** [PODMAN_VERSION="$(get_version podman || echo null)"] and the block
    it guards. *)
Definition setup_podman : sh unit :=
  version_of "podman" ;;
  let PODMAN_VERSION :=
    if get_version_finds env "podman" then podman_version env else "null" in
  when (negb (PODMAN_VERSION =? "null") && negb (SKIP_PODMAN env =? "1"))
    (when (podman_machine_ls_running env =? "false")
       (log ["notice"; "Starting podman machine"] ;;
        cmd "podman machine start" ;;
        match podman_machine_wait env with
        | Some n => rounds n (cmd "sleep 1")
        | None => fun t => (t, inr (Waits "podman machine ls: Running"))
        end) ;;
     log ["notice"; "Pull our test container image."] ;;
     cmd "podman pull" ;;
     get_version_line "podman run ansible --version" ;;
     get_version_line "podman run ansible-lint --version").

(** The tools whose version the manifest asks [get_version] for, in the
    order of the here-document. *)
Definition manifest_tools : list string :=
  ["ansible-lint"; "ansible"; "asdf"; "bash"; "gh"; "git"; "node";
   "pre-commit"; "python"; "task"; "yarn"; "docker"].

Definition write_manifest : sh unit :=
  for_each manifest_tools version_of ;;
  cmd "cat >out/log/manifest.yml".

Definition install_node_deps : sh unit :=
  if yarn_lock env then
    when (negb (yarn_present_at_install env)) (cmd "npm install -g yarn") ;;
    cmd "yarn --version" ;;
    log ["notice"; "Install node deps using: ${CMD}"] ;;
    cmd "yarn install --immutable"
  else
    log ["notice"; "Install node deps using: ${CMD}"] ;;
    cmd "npm ci --no-audit".

(** The script, top to bottom.  [ERR] is set to 0 at the top and never
    changed, so the last line is [exit 0]. *)
Definition script : sh unit :=
  let ERR := 0 in
  cmd "./tools/get-image-version" ;;
  cmd "mkdir -p out/log" ;;
  cmd ":> out/log/pip.log" ;;
  log ["notice"; "Install latest lts version of nodejs (used by 'node-lts' job)"] ;;
  cmd "asdf install" ;;
  log ["notice"; "Report current build tool versions..."] ;;
  cmd "asdf current" ;;
  install_debs ;;
  log ["notice"; "Using $(python3 --version)"] ;;
  check_git ;;
  macos_podman ;;
  WSL <- check_windows ;;
  check_path ;;
  check_filesystem ;;
  install_gh ;;
  install_npm_on_wsl ;;
  setup_virtualenv ;;
  install_dependencies WSL ;;
  isolate_on_ci ;;
  check_tool "ansible" ;;
  check_tool "ansible-lint" ;;
  setup_node ;;
  setup_podman ;;
  write_manifest ;;
  install_node_deps ;;
  log [(if (ERR =? 0)%nat then "notice" else "error");
       "${0##*/} -> out/log/manifest.yml and returned ${ERR}"] ;;
  exit ERR.

Definition bootstrap : list action * (unit + outcome) := script [].

End Script.

Definition ends (env : Env) : unit + outcome := snd (bootstrap env).
Definition did (env : Env) : list action := fst (bootstrap env).

(** ** The failures the script looks for *)

Inductive failure : Type :=
| bad_log_call
| git_unconfigured
| windows_build_tools
| world_writable_filesystem
| virtualenv_broken
| ansible_preinstalled
| ansible_lint_preinstalled
| tool_outside_virtualenv.

Definition failures : list failure :=
  [bad_log_call; git_unconfigured; windows_build_tools;
   world_writable_filesystem; virtualenv_broken; ansible_preinstalled;
   ansible_lint_preinstalled; tool_outside_virtualenv].

(** The number after [exit] at each of them. *)
Definition exit_code (f : failure) : nat :=
  match f with
  | bad_log_call => 2
  | git_unconfigured => 40
  | windows_build_tools => 1
  | world_writable_filesystem => 100
  | virtualenv_broken => 99
  | ansible_preinstalled => 66
  | ansible_lint_preinstalled => 67
  | tool_outside_virtualenv => 68
  end.

Definition outside (env : Env) (tool : string) : bool :=
  match command_v env tool with
  | Some path => negb (before_out path =? pwd_P env)
  | None => false
  end.

(** The tests of the script that lead to an [exit], in the order in
    which they come, each with the condition under which it fails, the
    attempt at repair that precedes it taken into account:
    - git: fatal only outside CI (on CI the script configures git);
    - virtualenv: fatal only if still wrong after [venv --clear];
    - ansible, ansible-lint: tested only on CI and only when the tool is
      not on the PATH, after [pipx uninstall];
    - the two rounds of the loop over the tools. *)
Definition tests (env : Env) : list (bool * failure) :=
  [ (git_not_configured env && (CI env =? EmptyString), git_unconfigured);
    (or_empty (OS env) =? "windows", windows_build_tools);
    (world_writable env, world_writable_filesystem);
    (negb (python3_in_virtualenv env)
     && negb (python3_in_virtualenv_recreated env), virtualenv_broken);
    (negb (CI env =? EmptyString) && negb (ansible_on_PATH env)
     && negb (which_a_ansible env =? 1)%nat, ansible_preinstalled);
    (negb (CI env =? EmptyString) && negb (ansible_lint_on_PATH env)
     && negb (which_a_ansible_lint env =? 1)%nat, ansible_lint_preinstalled);
    (outside env "ansible", tool_outside_virtualenv);
    (outside env "ansible-lint", tool_outside_virtualenv) ].

(** The first of them that fails on [env], looking from the [k]-th on. *)
Definition first_failure_from (k : nat) (env : Env) : option failure :=
  option_map snd (find fst (skipn k (tests env))).

Definition first_failure (env : Env) : option failure :=
  first_failure_from 0 env.

(** The code the script leaves with when [f] is the first failure, 0
    when there is none. *)
Definition code_of (f : option failure) : nat :=
  match f with
  | Some f => exit_code f
  | None => 0
  end.

(** ** The attempts at repair *)

Definition git_config_email : string :=
  "git config user.email ansible-devtools@redhat.com".
Definition git_config_name : string :=
  "git config user.name 'Ansible DevTools'".
Definition venv_clear : string := "python3 -m venv --clear".
Definition pipx_uninstall (tool : string) : string :=
  "pipx uninstall --verbose " ++ tool.

(** What a run that ends with [exit code] has done by way of repair,
    [done] being all it did.  A repair shows once the script is past the
    test it belongs to, that is, unless [code] is that of an earlier
    test.
    - git unconfigured on CI: both [git config] commands were run;
    - [python3] not from the virtualenv at the first test: the
      virtualenv was recreated;
    - ansible (ansible-lint) not on the PATH on CI: [pipx uninstall]
      was run for it. *)
Definition repaired (env : Env) (code : nat) (done : list action) : Prop :=
  (git_not_configured env = true -> CI env <> EmptyString ->
   In (Ran git_config_email) done /\ In (Ran git_config_name) done) /\
  (python3_in_virtualenv env = false -> ~ In code [40; 1; 100] ->
   In (Ran venv_clear) done) /\
  (CI env <> EmptyString -> ansible_on_PATH env = false ->
   ~ In code [40; 1; 100; 99] ->
   In (Ran (pipx_uninstall "ansible")) done) /\
  (CI env <> EmptyString -> ansible_lint_on_PATH env = false ->
   ~ In code [40; 1; 100; 99; 66] ->
   In (Ran (pipx_uninstall "ansible-lint")) done).

(** ** The ways the script ends *)

(** An end of the script that is not one of its [exit] statements, with
    its cause on [env]: a command line that leaves with a status other
    than 0, [${HOME}] expanded on line 134 or [${OS}] on line 156 (which
    is reached only when [gh] is missing) while unset, the loop that
    waits for a podman machine that never reports [true]. *)
Definition crash (env : Env) (o : outcome) : Prop :=
  match o with
  | Exit _ => False
  | Abort c n => n <> 0
  | Unset v =>
      (v = "HOME" /\ HOME env = None)
      \/ (v = "OS" /\ OS env = None /\ gh_present env = false)
  | Waits _ => podman_machine_wait env = None
  end.

(** The command line [c] whose status [n] ended a run that did [done]:
    a command run for its effect, the last thing the script did, with
    the status the machine gave it there; or the assignment
    [CMD=$(command -v tool)] for a tool that is missing; or a
    [get_version] that does not find its command. *)
Definition aborted (env : Env) (c : string) (n : nat) (done : list action)
    : Prop :=
  (exists before, done = before ++ [Ran c] /\ status env before c = n)
  \/ (n = 1 /\ exists tool,
        c = ("command -v " ++ tool)%string /\ command_v env tool = None)
  \/ (n = 99 /\ exists args,
        c = ("get_version " ++ args)%string /\
        get_version_finds env args = false).

(** What holds of a run of the script that has done [done] and ends
    with [o]: an [exit] has the code of the first failure, or 0 if there
    is none, and comes after the repairs; any other end has its cause. *)
Definition verdict (env : Env) (done : list action) (o : outcome) : Prop :=
  match o with
  | Exit code => code = code_of (first_failure env) /\ repaired env code done
  | _ => crash env o
  end.

(** The script has got past the first [k] tests: none of them fails on
    [env], and the repairs that belong to them are in [done]. *)
Definition reached (k : nat) (env : Env) (done : list action) : Prop :=
  first_failure env = first_failure_from k env /\
  (1 <= k -> git_not_configured env = true -> CI env <> EmptyString ->
   In (Ran git_config_email) done /\ In (Ran git_config_name) done) /\
  (4 <= k -> python3_in_virtualenv env = false -> In (Ran venv_clear) done) /\
  (5 <= k -> CI env <> EmptyString -> ansible_on_PATH env = false ->
   In (Ran (pipx_uninstall "ansible")) done) /\
  (6 <= k -> CI env <> EmptyString -> ansible_lint_on_PATH env = false ->
   In (Ran (pipx_uninstall "ansible-lint")) done).

(** ** Machines used in the examples *)

Definition here : string := "/home/dev/vscode-ansible".

Definition venv_bin : string := here ++ "/out/venvs/localhost/bin/".

(** A machine on which everything is in order except what the
    arguments say: the value of [CI] and of [OS], whether git is
    configured, whether [python3] comes from the virtualenv before and
    after the virtualenv is recreated, whether the checkout is
    world-writable, whether ansible and ansible-lint are on the PATH,
    and the directory the two tools are found in.  It has neither podman
    nor docker. *)
Definition machine (ci os : string) (git : bool)
    (python3_first python3_second : bool) (writable : bool)
    (ansible ansible_lint : bool) (tool_dir : string) : Env :=
  {| CI := ci; SKIP_PODMAN := "1"; GIT_NOT_CONFIGURED := EmptyString;
     OS := Some os; HOME := Some "/home/dev";
     pwd_P := here; uname := "Linux"; status := fun _ _ => 0;
     apt_get_present := true; debs_missing := false;
     git_user_email := git; git_user_name := git;
     podman_present := false; podman_machine_listed := false;
     podman_machine_running := false; proc_version_microsoft := false;
     PATH_has_local_bin := true; world_writable := writable;
     gh_present := true; dnf_present := false;
     npm_path := "/usr/bin/npm"; venv_dir_exists := true;
     python3_in_virtualenv := python3_first;
     python3_in_virtualenv_recreated := python3_second;
     ansible_on_PATH := ansible;
     which_a_ansible := if ansible then 1 else 0;
     ansible_lint_on_PATH := ansible_lint;
     which_a_ansible_lint := if ansible_lint then 1 else 0;
     home_ansible_dir := false;
     command_v := fun tool => Some (tool_dir ++ tool)%string;
     npm_present := true; npm_prefix_writable := true;
     yarn_lock := true; yarn_present := true;
     yarn_present_at_install := true;
     get_version_finds :=
       fun args => negb (String.prefix "podman" args || (args =? "docker"));
     podman_version := "null";
     podman_machine_ls_running := EmptyString;
     podman_machine_wait := Some 0 |}.

(** A development machine with nothing wrong. *)
Definition healthy : Env :=
  machine EmptyString "linux" true true true false true true venv_bin.

(** The system [python3] comes first until the virtualenv is recreated. *)
Definition stale_virtualenv : Env :=
  machine EmptyString "linux" true false true false true true venv_bin.

(** On CI, without a git identity and with ansible-lint left to
    [pipx]; uninstalling it leaves the one copy of the virtualenv. *)
Definition fresh_runner : Env :=
  {| CI := "true"; SKIP_PODMAN := "1"; GIT_NOT_CONFIGURED := EmptyString;
     OS := Some "linux"; HOME := Some "/home/runner";
     pwd_P := here; uname := "Linux"; status := fun _ _ => 0;
     apt_get_present := true; debs_missing := false;
     git_user_email := false; git_user_name := false;
     podman_present := false; podman_machine_listed := false;
     podman_machine_running := false; proc_version_microsoft := false;
     PATH_has_local_bin := true; world_writable := false;
     gh_present := true; dnf_present := false;
     npm_path := "/usr/bin/npm"; venv_dir_exists := false;
     python3_in_virtualenv := true;
     python3_in_virtualenv_recreated := true;
     ansible_on_PATH := true; which_a_ansible := 1;
     ansible_lint_on_PATH := false; which_a_ansible_lint := 1;
     home_ansible_dir := true;
     command_v := fun tool => Some (venv_bin ++ tool)%string;
     npm_present := true; npm_prefix_writable := true;
     yarn_lock := true; yarn_present := true;
     yarn_present_at_install := true;
     get_version_finds :=
       fun args => negb (String.prefix "podman" args || (args =? "docker"));
     podman_version := "null";
     podman_machine_ls_running := EmptyString;
     podman_machine_wait := Some 0 |}.

(** A machine like [healthy] without [gh] and with [OS] unset. *)
Definition without_gh_and_OS : Env :=
  {| CI := EmptyString; SKIP_PODMAN := "1";
     GIT_NOT_CONFIGURED := EmptyString;
     OS := None; HOME := Some "/home/dev";
     pwd_P := here; uname := "Linux"; status := fun _ _ => 0;
     apt_get_present := true; debs_missing := false;
     git_user_email := true; git_user_name := true;
     podman_present := false; podman_machine_listed := false;
     podman_machine_running := false; proc_version_microsoft := false;
     PATH_has_local_bin := true; world_writable := false;
     gh_present := false; dnf_present := false;
     npm_path := "/usr/bin/npm"; venv_dir_exists := true;
     python3_in_virtualenv := true;
     python3_in_virtualenv_recreated := true;
     ansible_on_PATH := true; which_a_ansible := 1;
     ansible_lint_on_PATH := true; which_a_ansible_lint := 1;
     home_ansible_dir := false;
     command_v := fun tool => Some (venv_bin ++ tool)%string;
     npm_present := true; npm_prefix_writable := true;
     yarn_lock := true; yarn_present := true;
     yarn_present_at_install := true;
     get_version_finds :=
       fun args => negb (String.prefix "podman" args || (args =? "docker"));
     podman_version := "null";
     podman_machine_ls_running := EmptyString;
     podman_machine_wait := Some 0 |}.

(** [env] with other answers to the commands it runs. *)
Definition with_status (st : list action -> string -> nat) (env : Env)
    : Env :=
  {| CI := CI env; SKIP_PODMAN := SKIP_PODMAN env;
     GIT_NOT_CONFIGURED := GIT_NOT_CONFIGURED env;
     OS := OS env; HOME := HOME env;
     pwd_P := pwd_P env; uname := uname env; status := st;
     apt_get_present := apt_get_present env;
     debs_missing := debs_missing env;
     git_user_email := git_user_email env;
     git_user_name := git_user_name env;
     podman_present := podman_present env;
     podman_machine_listed := podman_machine_listed env;
     podman_machine_running := podman_machine_running env;
     proc_version_microsoft := proc_version_microsoft env;
     PATH_has_local_bin := PATH_has_local_bin env;
     world_writable := world_writable env;
     gh_present := gh_present env; dnf_present := dnf_present env;
     npm_path := npm_path env; venv_dir_exists := venv_dir_exists env;
     python3_in_virtualenv := python3_in_virtualenv env;
     python3_in_virtualenv_recreated := python3_in_virtualenv_recreated env;
     ansible_on_PATH := ansible_on_PATH env;
     which_a_ansible := which_a_ansible env;
     ansible_lint_on_PATH := ansible_lint_on_PATH env;
     which_a_ansible_lint := which_a_ansible_lint env;
     home_ansible_dir := home_ansible_dir env;
     command_v := command_v env;
     npm_present := npm_present env;
     npm_prefix_writable := npm_prefix_writable env;
     yarn_lock := yarn_lock env; yarn_present := yarn_present env;
     yarn_present_at_install := yarn_present_at_install env;
     get_version_finds := get_version_finds env;
     podman_version := podman_version env;
     podman_machine_ls_running := podman_machine_ls_running env;
     podman_machine_wait := podman_machine_wait env |}.

(** A machine like [healthy] on which [asdf] is not installed: running
    it leaves with 127. *)
Definition without_asdf : Env :=
  with_status (fun _ c => if String.prefix "asdf" c then 127 else 0) healthy.

(** A machine for each failure the script can meet on its way. *)
Definition exhibiting (f : failure) : Env :=
  match f with
  | bad_log_call => healthy
  | git_unconfigured =>
      machine EmptyString "linux" false true true false true true venv_bin
  | windows_build_tools =>
      machine EmptyString "windows" true true true false true true venv_bin
  | world_writable_filesystem =>
      machine EmptyString "linux" true true true true true true venv_bin
  | virtualenv_broken =>
      machine EmptyString "linux" true false false false true true venv_bin
  | ansible_preinstalled =>
      machine "true" "linux" true true true false false true venv_bin
  | ansible_lint_preinstalled =>
      machine "true" "linux" true true true false true false venv_bin
  | tool_outside_virtualenv =>
      machine EmptyString "linux" true true true false true true "/usr/bin/"
  end.

(** ** How a piece of the script ends *)

(** [m] ends the script with [o], whatever was done before. *)
Definition stops {A : Type} (m : sh A) (o : outcome) : Prop :=
  forall t, exists t', m t = (t', inr o).

(** Started after [t] with [Pre t], the piece [m] either goes on to the
    next line with [Q] of all that has been done and of its value, or
    ends the script with [E] of all that has been done and of the way it
    ends. *)
Definition hoare {A : Type} (Pre : list action -> Prop) (m : sh A)
    (Q : list action -> A -> Prop) (E : list action -> outcome -> Prop)
    : Prop :=
  forall t, Pre t ->
    match snd (m t) with
    | inl a => Q (fst (m t)) a
    | inr o => E (fst (m t)) o
    end.

(** When [m] ends the script because a command line fails, that line is
    accounted for. *)
Definition accounted (env : Env) {A : Type} (m : sh A) : Prop :=
  forall t, exists added,
    fst (m t) = t ++ added /\
    forall c n, snd (m t) = inr (Abort c n) -> aborted env c n (t ++ added).

(** [Pre] still holds when more has been done. *)
Definition stable (Pre : list action -> Prop) : Prop :=
  forall t added, Pre t -> Pre (t ++ added).

End Bootstrap.

(* ===================================================================== *)
(** * Reading what the bootstrap script did                              *)
(* ===================================================================== *)

Module BootstrapTrace.

Import Bootstrap.

(** [sub] occurs in [s]. *)
Fixpoint contains (sub s : string) : bool :=
  String.prefix sub s
  || match s with
     | EmptyString => false
     | String _ r => contains sub r
     end.

(** The word [log] takes for each level. *)
Definition level_name (l : level) : string :=
  match l with
  | notice => "notice"
  | warning => "warning"
  | error => "error"
  end.

(** Everything [m] adds to what was done satisfies [P], and if [m] ends
    the script, it ends it in a way that satisfies [O]. *)
Definition within (P : action -> Prop) (O : outcome -> Prop) {A : Type}
    (m : sh A) : Prop :=
  forall t, exists added,
    fst (m t) = t ++ added /\
    Forall P added /\
    match snd (m t) with
    | inr o => O o
    | inl _ => True
    end.

(** If [m] ends the script with a nonzero [exit], the last thing it did
    was to log an error. *)
Definition announced {A : Type} (m : sh A) : Prop :=
  forall t, exists added,
    fst (m t) = t ++ added /\
    forall code, snd (m t) = inr (Exit code) -> code <> 0 ->
                 exists before text, added = before ++ [Logged error text].

(** The commands among the actions satisfy [ok]. *)
Definition commands_are (ok : string -> bool) (a : action) : Prop :=
  match a with
  | Ran c => ok c = true
  | Logged _ _ => True
  end.

(** The [exit] codes among the outcomes are in [codes]. *)
Definition exits_in (codes : list nat) (o : outcome) : Prop :=
  match o with
  | Exit c => In c codes
  | _ => True
  end.

Definition never_waits (o : outcome) : Prop :=
  match o with
  | Waits _ => False
  | _ => True
  end.

(** Commands that only CI may run: removing installed tools, removing
    [~/.ansible], writing the git configuration. *)
Definition ci_only (c : string) : bool :=
  contains "pipx uninstall" c || contains "rm -rf" c
  || contains "git config user" c.


End BootstrapTrace.

(* ===================================================================== *)
(** * Soundness of the logic of turns                                    *)
(* ===================================================================== *)

Section TurnFacts.

Variable Inv : mstate -> Prop.
Variable Post : mstate -> mstate -> Prop.
Variable later : mstate -> mstate -> Prop.

Hypothesis later_refl : forall s, later s s.
Hypothesis later_trans :
  forall s1 s2 s3, later s1 s2 -> later s2 s3 -> later s1 s3.
Hypothesis later_sync :
  forall (X : Type) (c : sync X) o s, later s (snd (sync_sem c o s)).
Hypothesis later_record : forall e s, later s (record e s).

Lemma resumable_later {R T : Type} (k : result T -> prog R) s s' :
  later s s' -> resumable Inv Post later s k -> resumable Inv Post later s' k.
Proof. intros L H r o s0 Ho L' Hi. apply H; eauto. Qed.

Lemma tasks_later ts s s' :
  later s s' ->
  Forall (task_ok Inv Post later s) ts -> Forall (task_ok Inv Post later s') ts.
Proof.
  intros L H. eapply Forall_impl; [| exact H].
  intros t Ht. eapply resumable_later; eauto.
Qed.

Lemma parked_ok s (st : stop unit) :
  stop_ok Inv Post later s st -> Forall (task_ok Inv Post later s) (parked st).
Proof. destruct st; simpl; intros H; constructor; auto. Qed.

(** Running a program that satisfies [wp] ends in a state satisfying the
    postcondition, and leaves only tasks that can be resumed. *)
Lemma wp_run (R : Type) (p : prog R) :
  forall o Q s, wp Inv Post later p o Q s ->
    Q (fst (fst (run p o s))) /\
    Forall (task_ok Inv Post later (fst (fst (run p o s))))
           (snd (fst (run p o s))) /\
    stop_ok Inv Post later (fst (fst (run p o s))) (snd (run p o s)) /\
    later s (fst (fst (run p o s))).
Proof.
  induction p as [R r | R e | R X c k IH | R T c k IH | R q IHq k IHk];
    intros o Q s H; simpl in *.
  - auto.
  - auto.
  - specialize (later_sync c o s).
    destruct (sync_sem c o s) as [x s'] eqn:E. simpl in *.
    apply IH in H. destruct H as (H1 & H2 & H3 & H4). eauto 6.
  - destruct H as [H1 H2]. repeat split; auto.
    intros r o' s0 Ho L Hi. apply H2; eauto.
  - apply IHq in H. destruct (run q o s) as [[s1 ts1] st1]. simpl in H.
    destruct H as (Hk & Hts1 & Hst1 & L1).
    apply IHk in Hk. destruct (run k o s1) as [[s2 ts2] st2]. simpl in *.
    destruct Hk as (HQ & Hts2 & Hst2 & L2).
    repeat split; eauto.
    apply Forall_app; split; [eapply tasks_later; eauto |].
    apply Forall_app; split; [| exact Hts2].
    eapply tasks_later; [exact L2 |]. apply parked_ok, Hst1.
Qed.

Lemma start_ok (p : prog unit) o Q s0 s waiting :
  later s0 s -> wp Inv Post later p o Q s ->
  Forall (task_ok Inv Post later s0) waiting ->
  Q (ms (start p o s waiting)) /\
  Forall (task_ok Inv Post later (ms (start p o s waiting)))
         (pending (start p o s waiting)).
Proof.
  intros L H Hw. apply wp_run in H. unfold start.
  destruct (run p o s) as [[s' ts] st]. simpl in *.
  destruct H as (HQ & Hts & Hst & L'). split; auto.
  apply Forall_app; split; [eapply tasks_later; [| exact Hw]; eauto |].
  apply Forall_app; split; auto using parked_ok.
Qed.

End TurnFacts.

(* ===================================================================== *)
(** * What a turn can do to the two variables                            *)
(* ===================================================================== *)

Abbreviation wp_turn := (wp inv turn_post older).

Lemma older_refl s : older s s.
Proof. unfold older; lia. Qed.

Lemma older_trans s1 s2 s3 : older s1 s2 -> older s2 s3 -> older s1 s3.
Proof. unfold older; lia. Qed.

Lemma older_sync (X : Type) (c : sync X) o s : older s (snd (sync_sem c o s)).
Proof.
  unfold older. destruct c; simpl; try lia.
  destruct (is_live p (live s)); simpl; lia.
Qed.

Lemma older_record e s : older s (record e s).
Proof. unfold older; simpl; lia. Qed.

Lemma is_live_In p l : is_live p l = true <-> In p l.
Proof.
  unfold is_live. rewrite existsb_exists. split.
  - intros [q [Hq E]]. apply Nat.eqb_eq in E. subst. exact Hq.
  - intros H. exists p. split; [exact H | apply Nat.eqb_refl].
Qed.

Lemma incl_without p l : incl (without p l) l.
Proof. apply incl_filter. Qed.

(** The three shapes of the state at the end of a turn. *)
Lemma inv_kept s0 s :
  inv s0 ->
  wizardId s = wizardId s0 -> live s = live s0 ->
  next_panel s = next_panel s0 ->
  currentPage s = currentPage s0 \/ truthy_id (wizardId s0) = true ->
  inv s.
Proof.
  intros (Hp & Hf & Hs) Ew El En Ec. unfold inv, page_inv, fresh_inv, single_inv.
  rewrite Ew, El, En. repeat split; auto.
  - apply Hp; auto.
  - destruct Ec as [Ec | Ec]; [rewrite Ec; apply Hp; auto | congruence].
Qed.

Lemma inv_closed p s0 s :
  inv s0 ->
  wizardId s = None ->
  currentPage s = JUndefined \/
    (currentPage s = currentPage s0 /\ truthy_id (wizardId s0) = false) ->
  next_panel s = next_panel s0 ->
  p < next_panel s0 ->
  (live s = without p (live s0) \/ (live s = live s0 /\ is_live p (live s0) = false)) ->
  inv s.
Proof.
  intros (Hp & Hf & Hs) Ew Ec En Lp El.
  unfold inv, page_inv, fresh_inv, single_inv. rewrite Ew, En.
  repeat split.
  - destruct Ec as [Ec | [Ec Et]]; [exact Ec |].
    rewrite Ec. apply Hp, Et.
  - intros q Hq. apply Hf.
    destruct El as [El | [El _]]; rewrite El in Hq; auto.
    eapply incl_without; eauto.
  - intros Hn. left. split; auto.
    assert (p = 0) by lia. subst p.
    destruct (Hs Hn) as [[_ L0] | [_ L0]].
    + destruct El as [El | [El _]]; rewrite El, L0; reflexivity.
    + destruct El as [El | [El Hl]]; [rewrite El, L0; reflexivity |].
      rewrite L0 in Hl. discriminate.
Qed.

Lemma inv_opened s0 s :
  inv s0 ->
  truthy_id (wizardId s) = true ->
  live s = live s0 ++ [next_panel s0] ->
  next_panel s = S (next_panel s0) ->
  inv s.
Proof.
  intros (Hp & Hf & Hs) Ew El En.
  assert (W : wizardId s <> None) by (intros E; rewrite E in Ew; discriminate).
  unfold inv, page_inv, fresh_inv, single_inv. rewrite El, En.
  repeat split; try congruence.
  - intros q Hq. apply in_app_or in Hq. destruct Hq as [Hq | [Hq | []]].
    + apply Hf in Hq. lia.
    + lia.
  - intros Hn. right. split; auto.
    assert (N : next_panel s0 = 0) by lia. rewrite N.
    destruct Hs as [[_ L0] | [_ L0]]; [lia | rewrite L0; reflexivity |].
    exfalso. specialize (Hf 0). rewrite L0 in Hf. simpl in Hf.
    specialize (Hf (or_introl eq_refl)). lia.
Qed.

Lemma kind_closed s0 s :
  inv s0 ->
  wizardId s = None ->
  currentPage s = JUndefined \/
    (currentPage s = currentPage s0 /\ truthy_id (wizardId s0) = false) ->
  incl (live s) (live s0) ->
  turn_kind s0 s.
Proof.
  intros (Hp & _) Ew Ec El. apply turn_closes; auto.
  destruct Ec as [Ec | [Ec Et]]; [exact Ec |].
  rewrite Ec. apply Hp, Et.
Qed.

Ltac turn_step :=
  match goal with
  | |- _ /\ _ => split
  | |- forall _, _ => intro
  | |- context [truthy_id (wizardId ?s)] =>
      let E := fresh "E" in destruct (truthy_id (wizardId s)) eqn:E
  | |- context [is_live ?p ?s] =>
      let E := fresh "E" in destruct (is_live p s) eqn:E
  | |- context [o_feedback_throws ?o] =>
      let E := fresh "E" in destruct (o_feedback_throws o) eqn:E
  | |- context [truthy ?v] =>
      let E := fresh "E" in destruct (truthy v) eqn:E
  | |- context [match ?r with Resolved _ => _ | Rejected _ => _ end] => destruct r
  | |- context [match ?r with inl _ => _ | inr _ => _ end] => destruct r
  | |- context [is_string ?v ?l] =>
      let E := fresh "E" in destruct (is_string v l) eqn:E
  | |- context [chose ?v ?l] =>
      let E := fresh "E" in destruct (chose v l) eqn:E
  | |- context [if negb ?b then _ else _] => destruct b
  | |- context [if ?b then _ else _] => destruct b
  end.

Ltac turn :=
  repeat first [progress cbn in * | progress unfold turn_post | turn_step].

Ltac side :=
  cbn in *; unfold older in *; cbn in *;
  solve [ reflexivity | assumption | lia | congruence
        | left; reflexivity | left; assumption
        | right; assumption
        | right; split; [reflexivity | assumption]
        | right; split; [reflexivity | congruence] ].

Ltac leaf :=
  match goal with
  | H : inv ?s |- inv _ =>
      first [ solve [eapply (@inv_kept s); [exact H | side ..]]
            | solve [eapply (@inv_opened s); [exact H | side ..]] ]
  | H : inv ?s, L : ?p < _ |- inv _ =>
      solve [eapply (@inv_closed p s); [exact H | side ..]]
  | H : inv ?s |- turn_kind ?s _ =>
      solve [ apply turn_keeps; cbn; congruence
            | eapply kind_closed;
              [ exact H | side | side
              | cbn; auto using incl_refl, incl_without, incl_filter ]
            | eapply turn_opens; cbn; [congruence | reflexivity] ]
  | |- turn_kind _ _ =>
      solve [ apply turn_keeps; cbn; congruence
            | apply turn_closes; cbn;
              auto using incl_refl, incl_without, incl_filter
            | eapply turn_opens; cbn; [congruence | reflexivity] ]
  end.

Section Handlers.

Variable UNKNOWN_ERROR : string.

Lemma onDidDispose_ok p o s0 :
  inv s0 -> is_live p (live s0) = true -> p < next_panel s0 ->
  wp_turn onDidDispose o (turn_post s0)
    (mkState (wizardId s0) (currentPage s0) (without p (live s0))
             (next_panel s0) (log s0)).
Proof.
  intros H Hl Hlt. unfold onDidDispose, sendActionEvent. turn.
  all: leaf.
Qed.

Lemma showPlaybookGenerationPage_ok o s0 :
  oracle_ok o = true -> inv s0 ->
  wp_turn showPlaybookGenerationPage o (turn_post s0) s0.
Proof.
  intros Ho H. unfold showPlaybookGenerationPage, sendActionEvent. turn.
  all: leaf.
Qed.

Lemma onDidReceiveMessage_ok p m o s0 :
  oracle_ok o = true -> inv s0 -> p < next_panel s0 ->
  wp_turn (onDidReceiveMessage UNKNOWN_ERROR p m) o (turn_post s0) s0.
Proof.
  intros Ho H Hlt.
  unfold onDidReceiveMessage, case_outline, case_generateCode, case_transition,
    case_openEditor, case_resetOutline, openEditor_accept, panel_dispose,
    onDidDispose, sendActionEvent, generatePlaybook, outline_then,
    generateCode_finish, contentMatch, openNewPlaybookEditor.
  turn.
  all: leaf.
Qed.

End Handlers.

(** ** The invariant of the event loop *)

Lemma world0_ok : world_ok world0.
Proof.
  split; [| constructor]. split; [| split].
  - intros _. split; reflexivity.
  - intros q [].
  - intros _. left. split; reflexivity.
Qed.

Lemma Forall_drop_nth {A : Type} (P : A -> Prop) (l : list A) :
  Forall P l -> forall i, Forall P (drop_nth i l).
Proof.
  induction 1 as [| x l Hx Hl IH]; intros i.
  - destruct i; constructor.
  - destruct i as [| i]; unfold drop_nth; simpl.
    + exact Hl.
    + constructor; [exact Hx | apply IH].
Qed.

Lemma step_ok unk w e w' :
  world_ok w -> step unk w e = Some w' ->
  turn_post (ms w) (ms w') /\ world_ok w'.
Proof.
  intros [Hi Hp] Hs. unfold step in Hs.
  destruct (oracle_ok (oracle_of e)) eqn:Ho; [simpl in Hs | discriminate].
  assert (G : forall p s,
             older (ms w) s ->
             wp_turn p (oracle_of e) (turn_post (ms w)) s ->
             forall waiting,
               Forall (task_ok inv turn_post older (ms w)) waiting ->
               turn_post (ms w) (ms (start p (oracle_of e) s waiting)) /\
               world_ok (start p (oracle_of e) s waiting)).
  { intros p s L Hwp waiting Hw.
    edestruct (@start_ok inv turn_post older) as [HQ Hts];
      eauto using older_refl, older_trans, older_sync, older_record.
    split; [exact HQ | split; [apply HQ | exact Hts]]. }
  destruct e as [o | p m o | p o | i a o]; simpl in *.
  - inversion Hs; subst.
    apply G; auto using showPlaybookGenerationPage_ok, older_refl.
  - destruct (is_live p (live (ms w))) eqn:El; [| discriminate].
    inversion Hs; subst. apply G; auto using older_refl.
    apply onDidReceiveMessage_ok; auto.
    apply Hi. apply is_live_In, El.
  - destruct (is_live p (live (ms w))) eqn:El; [| discriminate].
    inversion Hs; subst. apply G; auto.
    + unfold older; simpl; lia.
    + apply onDidDispose_ok; auto. apply Hi. apply is_live_In, El.
  - destruct (nth_error (pending w) i) as [t |] eqn:Et; [| discriminate].
    destruct (coerce (t_call t) a) as [r |]; [| discriminate].
    inversion Hs; subst. apply G; auto using Forall_drop_nth, older_refl.
    rewrite Forall_forall in Hp. apply (Hp t); eauto using nth_error_In, older_refl.
Qed.

Lemma steps_from_ok unk es : forall w w',
  world_ok w -> steps unk w es = Some w' -> world_ok w'.
Proof.
  induction es as [| e es IH]; intros w w' Hw H; simpl in H.
  - inversion H; subst; exact Hw.
  - destruct (step unk w e) as [w1 |] eqn:E; [| discriminate].
    apply (IH w1); auto. eapply step_ok; eauto.
Qed.

Lemma steps_ok unk es w :
  steps unk world0 es = Some w -> world_ok w.
Proof. apply steps_from_ok, world0_ok. Qed.

(* ===================================================================== *)
(** * The claims about the wizard                                        *)
(* ===================================================================== *)

(** C1.  After a wizard panel is disposed, by the user closing it or by
    the [openEditor] case calling [panel.dispose()], both module-level
    variables are [undefined]: in every world the event loop can reach,
    a step after which a panel that was live is live no more leaves
    [wizardId] and [currentPage] undefined. *)
Theorem C1_disposal_resets_both_variables unk es w e w' p :
  steps unk world0 es = Some w ->
  step unk w e = Some w' ->
  is_live p (live (ms w)) = true ->
  is_live p (live (ms w')) = false ->
  wizardId (ms w') = None /\ currentPage (ms w') = JUndefined.
Proof.
  intros Hes He Hl Hl'.
  apply steps_ok in Hes.
  destruct (@step_ok unk w e w' Hes He) as [[_ K] _].
  destruct K as [_ El | Ew Ec _ | q _ El].
  - rewrite El in Hl'. congruence.
  - auto.
  - apply is_live_In in Hl.
    assert (In p (live (ms w'))) by (rewrite El; apply in_or_app; auto).
    apply is_live_In in H. congruence.
Qed.

Lemma C1_witness :
  wizardId (ms (after unknown (one_transition ++ [Closed 0 oracleA]))) = None /\
  currentPage (ms (after unknown (one_transition ++ [Closed 0 oracleA])))
    = JUndefined.
Proof.
  apply (@C1_disposal_resets_both_variables unknown
           one_transition (after unknown one_transition)
           (Closed 0 oracleA)
           (after unknown (one_transition ++ [Closed 0 oracleA])) 0);
    vm_compute; reflexivity.
Defined.

(** C2, as stated, fails on the [outline] path: the generation call
    returns an error, the one-click-trial provider shows its popup, and
    no error message is shown; nothing is left pending that could still
    show one. *)
Lemma C2_counterexample :
  steps unknown world0 outline_error_popup
    = Some (after unknown outline_error_popup) /\
  errors_shown (log (ms (after unknown outline_error_popup))) = [] /\
  pending (after unknown outline_error_popup) = [].
Proof. vm_compute. repeat split; reflexivity. Qed.

(** C2, amended.  An error result of the generation call is turned into
    the text [message ?? UNKNOWN_ERROR], a space, and [detail] or
    nothing, and shown with [showErrorMessage] (called without the
    [modal] option).  In the [generateCode] case this happens for every
    error result, right after [stopSpinner].  In the [outline] case the
    error first goes to the one-click-trial provider, and the message is
    shown only if [showPopup] answers [false]. *)
Theorem C2_error_results_shown unk p m o s err :
  (m_command m = JStr "generateCode" -> truthy (m_playbook m) = false ->
   exists q st,
     run (onDidReceiveMessage unk p m) o s
       = (record (Began (playbookGenerationRequest q))
                 (record (postMessage p startSpinner) s), [], st) /\
     forall o1 s1,
       resume st (with_generation (Resolved (inr err))) o1 s1
         = Some (record (Began (showErrorMessage (errorMessage unk err)))
                        (record (postMessage p stopSpinner) s1), [], Done tt)) /\
  (m_command m = JStr "outline" -> truthy (m_outline m) = false ->
   exists q k,
     run (onDidReceiveMessage unk p m) o s
       = (record (Began (playbookGenerationRequest q))
                 (record (postMessage p startSpinner) s),
          [mkTask (playbookGenerationRequest q) k], Done tt) /\
     forall o1 s1, exists st,
       run (k (Resolved (inr err))) o1 s1
         = (record (Began (showPopup err))
                   (record (postMessage p stopSpinner) s1), [], st) /\
       forall (shown : bool) o2 s2,
         resume st (with_bool (Resolved shown)) o2 s2
           = Some (if shown then s2
                   else record (Began (showErrorMessage (errorMessage unk err))) s2,
                   [], Done tt)).
Proof.
  split; intros Hc Ht; unfold onDidReceiveMessage; rewrite Hc; cbn.
  - unfold case_generateCode. rewrite Ht. cbn.
    eexists. eexists. split; [reflexivity |].
    intros o1 s1. reflexivity.
  - unfold case_outline. rewrite Ht. cbn.
    eexists. eexists. split; [reflexivity |].
    intros o1 s1. eexists. split; [reflexivity |].
    intros [|] o2 s2; reflexivity.
Qed.

Lemma C2_witness :
  exists q st,
    run (onDidReceiveMessage unknown 0 (from_webview "generateCode")) oracleA
        (ms (after unknown (opening oracleA)))
      = (record (Began (playbookGenerationRequest q))
                (record (postMessage 0 startSpinner)
                        (ms (after unknown (opening oracleA)))), [], st) /\
    forall o1 s1,
      resume st (with_generation (Resolved (inr quota_error))) o1 s1
        = Some (record (Began (showErrorMessage "Quota exceeded "))
                       (record (postMessage 0 stopSpinner) s1), [], Done tt).
Proof.
  apply (proj1 (@C2_error_results_shown unknown 0 (from_webview "generateCode")
                  oracleA (ms (after unknown (opening oracleA))) quota_error));
    reflexivity.
Defined.

(** C3, as stated, fails: two [outline] messages in a row leave two
    generation requests in flight. *)
Lemma C3_counterexample :
  steps unknown world0 two_outlines = Some (after unknown two_outlines) /\
  in_flight (after unknown two_outlines) = 2.
Proof. vm_compute. split; reflexivity. Qed.

(** C3, amended.  The [generateCode] case awaits its request: the
    handler itself is suspended on it.  The [outline] case attaches a
    callback with [then] and returns while the request is pending.  In
    both cases the panel goes on delivering messages, and every message
    that starts a request adds one to those already in flight. *)
Theorem C3_requests_accumulate unk p m o :
  (m_command m = JStr "generateCode" -> truthy (m_playbook m) = false ->
   (forall s, exists q k,
      snd (run (onDidReceiveMessage unk p m) o s)
        = Suspended (playbookGenerationRequest q) k /\
      snd (fst (run (onDidReceiveMessage unk p m) o s)) = []) /\
   (forall w, oracle_ok o = true -> is_live p (live (ms w)) = true ->
      exists w', step unk w (Received p m o) = Some w' /\
                 in_flight w' = S (in_flight w))) /\
  (m_command m = JStr "outline" -> truthy (m_outline m) = false ->
   (forall s, exists q k,
      snd (run (onDidReceiveMessage unk p m) o s) = Done tt /\
      snd (fst (run (onDidReceiveMessage unk p m) o s))
        = [mkTask (playbookGenerationRequest q) k]) /\
   (forall w, oracle_ok o = true -> is_live p (live (ms w)) = true ->
      exists w', step unk w (Received p m o) = Some w' /\
                 in_flight w' = S (in_flight w))).
Proof.
  split; intros Hc Ht; split.
  - intros s. unfold onDidReceiveMessage, case_generateCode.
    rewrite Hc. cbn. rewrite Ht. cbn. eexists. eexists. split; reflexivity.
  - intros w Ho Hl. unfold step. simpl. rewrite Ho, Hl. simpl.
    eexists. split; [reflexivity |].
    unfold start, onDidReceiveMessage, case_generateCode.
    rewrite Hc. cbn. rewrite Ht. cbn.
    unfold in_flight. cbn. rewrite filter_app, length_app. cbn. lia.
  - intros s. unfold onDidReceiveMessage, case_outline.
    rewrite Hc. cbn. rewrite Ht. cbn. eexists. eexists. split; reflexivity.
  - intros w Ho Hl. unfold step. simpl. rewrite Ho, Hl. simpl.
    eexists. split; [reflexivity |].
    unfold start, onDidReceiveMessage, case_outline.
    rewrite Hc. cbn. rewrite Ht. cbn.
    unfold in_flight. cbn. rewrite filter_app, length_app. cbn. lia.
Qed.

Lemma C3_witness :
  exists w',
    step unknown (after unknown one_outline)
         (Received 0 (from_webview "outline") oracleB) = Some w' /\
    in_flight w' = S (in_flight (after unknown one_outline)).
Proof.
  apply (proj2 (proj2 (@C3_requests_accumulate unknown 0 (from_webview "outline")
                         oracleB)
                  eq_refl eq_refl));
    vm_compute; reflexivity.
Defined.

(** C4.  The handler is one switch over the five commands: a message
    whose command is none of them (a different string, or not a string)
    has no effect at all, in any state; and each of the five does have
    an effect for some message. *)
Theorem C4_five_commands unk :
  (forall p m o s,
     ~ In (m_command m) (map JStr commands) ->
     run (onDidReceiveMessage unk p m) o s = (s, [], Done tt)) /\
  (forall c, In c commands ->
     exists p m o s,
       m_command m = JStr c /\
       log (fst (fst (run (onDidReceiveMessage unk p m) o s))) <> log s).
Proof.
  split.
  - intros p m o s H. unfold onDidReceiveMessage.
    destruct (m_command m) as [| | b | n | c]; try reflexivity.
    unfold is_string.
    destruct (String.eqb_spec c "outline") as [-> | _];
      [exfalso; apply H; simpl; auto |].
    destruct (String.eqb_spec c "generateCode") as [-> | _];
      [exfalso; apply H; simpl; auto |].
    destruct (String.eqb_spec c "transition") as [-> | _];
      [exfalso; apply H; simpl; auto |].
    destruct (String.eqb_spec c "openEditor") as [-> | _];
      [exfalso; apply H; simpl; auto 6 |].
    destruct (String.eqb_spec c "resetOutline") as [-> | _];
      [exfalso; apply H; simpl; auto 7 |].
    reflexivity.
  - intros c H.
    exists 0, (from_webview c), oracleA, (ms (after unk (opening oracleA))).
    split; [reflexivity |].
    simpl in H.
    destruct H as [<- | [<- | [<- | [<- | [<- | []]]]]]; vm_compute; discriminate.
Qed.

Lemma C4_witness :
  run (onDidReceiveMessage unknown 0 (from_webview "init")) oracleA
      (ms (after unknown (opening oracleA)))
    = (ms (after unknown (opening oracleA)), [], Done tt) /\
  exists p m o s,
    m_command m = JStr "openEditor" /\
    log (fst (fst (run (onDidReceiveMessage unknown p m) o s))) <> log s.
Proof.
  split.
  - apply (proj1 (C4_five_commands unknown)).
    simpl. intros [H | [H | [H | [H | [H | []]]]]]; discriminate.
  - apply (proj2 (C4_five_commands unknown)). simpl. auto.
Defined.

(** C5, as stated, fails when the command is run twice: closing the
    first panel clears the shared [wizardId] while the second panel is
    still live. *)
Lemma C5_counterexample :
  steps unknown world0 two_panels_first_closed
    = Some (after unknown two_panels_first_closed) /\
  live (ms (after unknown two_panels_first_closed)) = [1] /\
  wizardId (ms (after unknown two_panels_first_closed)) = None.
Proof. vm_compute. repeat split; reflexivity. Qed.

(** C5, amended.  [showPlaybookGenerationPage] assigns the identifier
    [uuidv4()] returns when it opens the panel for an authenticated
    user.  As long as no second wizard panel has been created, the
    identifier is set exactly while the one panel is live: in every
    world the event loop can reach with at most one panel created,
    either there is no live panel and [wizardId] is undefined, or the
    panel is live and [wizardId] is defined. *)
Theorem C5_identifier_set_while_single_panel_live unk es w :
  (forall o s, exists st,
     run showPlaybookGenerationPage o s
       = (record (Began isAuthenticated) s, [], st) /\
     forall o1 s1, exists r,
       resume st (with_bool (Resolved true)) o1 s1 = Some r /\
       wizardId (fst (fst r)) = Some (o_uuid o1) /\
       live (fst (fst r)) = live s1 ++ [next_panel s1]) /\
  (steps unk world0 es = Some w ->
   next_panel (ms w) <= 1 ->
   (wizardId (ms w) = None /\ live (ms w) = []) \/
   (wizardId (ms w) <> None /\ live (ms w) = [0])).
Proof.
  split.
  - intros o s. eexists. split; [reflexivity |].
    intros o1 s1. eexists. split; [reflexivity |].
    unfold sendActionEvent. cbn.
    destruct (negb (o_uuid o1 =? EmptyString)); cbn;
      [destruct (o_feedback_throws o1); cbn |]; split; reflexivity.
  - intros Hes Hn. apply steps_ok in Hes.
    destruct Hes as [(_ & _ & Hs) _]. apply Hs, Hn.
Qed.

Lemma C5_witness :
  (wizardId (ms (after unknown (opening oracleA))) = None /\
   live (ms (after unknown (opening oracleA))) = []) \/
  (wizardId (ms (after unknown (opening oracleA))) <> None /\
   live (ms (after unknown (opening oracleA))) = [0]).
Proof.
  apply (proj2 (@C5_identifier_set_while_single_panel_live
                  unknown (opening oracleA) (after unknown (opening oracleA)))).
  - vm_compute; reflexivity.
  - vm_compute; lia.
Defined.

(** C6.  In every world the event loop can reach, a [transition] message
    received while [wizardId] is defined makes the handler send one
    feedback request, carrying the identifier, the action [TRANSITION],
    the previous [currentPage] as [fromPage] and the message's [toPage],
    and set [currentPage] to that [toPage].  Nothing else happens, except
    the error message shown if [feedbackRequest] throws. *)
Theorem C6_transition_event unk es w p m o w' :
  steps unk world0 es = Some w ->
  m_command m = JStr "transition" ->
  wizardId (ms w) <> None ->
  step unk w (Received p m o) = Some w' ->
  exists u,
    wizardId (ms w) = Some u /\
    ms w' = mkState (Some u) (m_toPage m) (live (ms w)) (next_panel (ms w))
              (log (ms w) ++
               Began (feedbackRequest
                        (mkAction u TRANSITION (currentPage (ms w)) (m_toPage m))
                        (o_test_token o))
               :: feedback_failure o) /\
    pending w' = pending w.
Proof.
  intros Hes Hc Hw Hs.
  apply steps_ok in Hes. destruct Hes as [[Hp _] _].
  destruct (wizardId (ms w)) as [u |] eqn:Eu; [| congruence].
  assert (T : truthy_id (Some u) = true).
  { destruct (truthy_id (Some u)) eqn:T; [reflexivity |].
    rewrite <- Eu in T. apply Hp in T. destruct T; congruence. }
  exists u. split; [reflexivity |].
  unfold step in Hs. simpl in Hs.
  destruct (oracle_ok o); [simpl in Hs | discriminate].
  destruct (is_live p (live (ms w))); [| discriminate].
  inversion Hs; subst w'; clear Hs.
  unfold start, onDidReceiveMessage, case_transition, sendActionEvent,
    feedback_failure.
  rewrite Hc. cbn. rewrite Eu. rewrite T. cbn.
  destruct (o_feedback_throws o); cbn; unfold record; cbn;
    rewrite ?Eu, ?app_nil_r, <- ?app_assoc; cbn; split; reflexivity.
Qed.

Lemma C6_witness :
  exists u,
    wizardId (ms (after unknown (opening oracleA))) = Some u /\
    ms (after unknown
          (opening oracleA ++ [Received 0 (from_webview "transition") oracleB]))
      = mkState (Some u) (JNum 2) [0] 1
          (log (ms (after unknown (opening oracleA))) ++
           Began (feedbackRequest (mkAction u TRANSITION (JNum 1) (JNum 2)) false)
           :: feedback_failure oracleB) /\
    pending (after unknown
               (opening oracleA ++
                [Received 0 (from_webview "transition") oracleB]))
      = pending (after unknown (opening oracleA)).
Proof.
  apply (@C6_transition_event unknown (opening oracleA)
           (after unknown (opening oracleA)) 0 (from_webview "transition")
           oracleB
           (after unknown
              (opening oracleA ++
               [Received 0 (from_webview "transition") oracleB]))).
  - vm_compute; reflexivity.
  - reflexivity.
  - vm_compute; discriminate.
  - vm_compute; reflexivity.
Defined.

(** C8.  [generatePlaybook] posts [startSpinner], issues the request and
    waits; whatever the request settles with (a response, an error
    object, or a rejection), the next thing it does is post [stopSpinner],
    and only then does it return the value or rethrow. *)
Theorem C8_spinner_always_stopped text outline generationId p o s :
  exists st,
    run (generatePlaybook text outline generationId p) o s
      = (record (Began (playbookGenerationRequest
                          (mkRequest text outline (is_undefined outline)
                                     generationId (wizardId s))))
                (record (postMessage p startSpinner) s), [], st) /\
    forall outcome o1 s1,
      resume st (with_generation outcome) o1 s1
        = Some (record (postMessage p stopSpinner) s1, [],
                match outcome with
                | Resolved response => Done response
                | Rejected e => Failed e
                end).
Proof.
  eexists. split; [reflexivity |].
  intros [r | e] o1 s1; reflexivity.
Qed.

(** C9, as stated, fails when two panels are open: panel 0 is closed
    first, which clears the shared [wizardId]; panel 1 is then accepted
    with [openEditor], and handling that message sends no close event at
    all.  The only close event of the run is the [CLOSE_CANCEL] sent when
    panel 0 was closed. *)
Lemma C9_counterexample :
  steps unknown world0 second_panel_accepted
    = Some (after unknown second_panel_accepted) /\
  live (ms (after unknown second_panel_accepted)) = [] /\
  filter is_close (feedback_sent (log (ms (after unknown second_panel_accepted))))
    = filter is_close
        (feedback_sent (log (ms (after unknown two_panels_first_closed)))) /\
  map a_action
      (filter is_close
         (feedback_sent (log (ms (after unknown second_panel_accepted)))))
    = [CLOSE_CANCEL].
Proof. vm_compute. repeat split; reflexivity. Qed.

(** C9, amended.  Handling [openEditor] opens the editor and then: sends
    one [CLOSE_ACCEPT] event if [wizardId] is still set at that moment
    (none if it was cleared meanwhile), clears [wizardId], and disposes
    the panel; the disposal callback that [panel.dispose()] fires sends
    nothing, so no [CLOSE_CANCEL] follows. *)
Theorem C9_accept_close_event unk p m o s :
  m_command m = JStr "openEditor" ->
  (exists st1,
     run (onDidReceiveMessage unk p m) o s
       = (record (Began (openTextDocument "ansible" (m_playbook m))) s, [], st1) /\
     forall doc o1 s1, exists st2,
       resume st1 (with_document (Resolved doc)) o1 s1
         = Some (record (Began (showTextDocument doc)) s1, [], st2) /\
       forall o2 s2,
         resume st2 (with_unit (Resolved tt)) o2 s2
           = Some (run (openEditor_accept p) o2 s2)) /\
  (forall u o2 s2,
     wizardId s2 = Some u -> u <> EmptyString ->
     run (openEditor_accept p) o2 s2
       = (mkState None JUndefined
            (if is_live p (live s2) then without p (live s2) else live s2)
            (next_panel s2)
            (log s2 ++
             Began (feedbackRequest
                      (mkAction u CLOSE_ACCEPT (currentPage s2) JUndefined)
                      (o_test_token o2))
             :: feedback_failure o2 ++
             (if is_live p (live s2) then [panel_disposed p] else [])),
          [], Done tt)) /\
  (forall o2 s2,
     truthy_id (wizardId s2) = false ->
     run (openEditor_accept p) o2 s2
       = (mkState None (currentPage s2)
            (if is_live p (live s2) then without p (live s2) else live s2)
            (next_panel s2)
            (log s2 ++ (if is_live p (live s2) then [panel_disposed p] else [])),
          [], Done tt)).
Proof.
  intros Hc. split; [| split].
  - unfold onDidReceiveMessage. rewrite Hc. cbn.
    eexists. split; [reflexivity |].
    intros doc o1 s1. eexists. split; [reflexivity |].
    intros o2 s2. reflexivity.
  - intros u o2 s2 Hu Hn.
    apply String.eqb_neq in Hn.
    unfold openEditor_accept, sendActionEvent, panel_dispose, onDidDispose,
      feedback_failure.
    cbn. rewrite Hu. cbn. rewrite Hn. cbn.
    destruct (o_feedback_throws o2); cbn;
      destruct (is_live p (live s2)); cbn; unfold record; cbn;
      rewrite ?app_nil_r, <- ?app_assoc; reflexivity.
  - intros o2 s2 Ht.
    unfold openEditor_accept, sendActionEvent, panel_dispose, onDidDispose.
    cbn. rewrite Ht. cbn.
    destruct (is_live p (live s2)); cbn; rewrite ?app_nil_r; reflexivity.
Qed.

Lemma C9_witness :
  feedback_sent
    (log (fst (fst (run (openEditor_accept 0) oracleB
                        (ms (after unknown (opening oracleA)))))))
  = feedback_sent (log (ms (after unknown (opening oracleA)))) ++
    [mkAction (o_uuid oracleA) CLOSE_ACCEPT (JNum 1) JUndefined].
Proof.
  rewrite (proj1 (proj2 (@C9_accept_close_event unknown 0
                           (from_webview "openEditor") oracleB (ms world0)
                           eq_refl))
             (o_uuid oracleA) oracleB (ms (after unknown (opening oracleA)))).
  - reflexivity.
  - reflexivity.
  - discriminate.
Defined.

(** C10.  For a user who is not authenticated,
    [showPlaybookGenerationPage] asks the host whether the user is logged
    in, shows the error message, and returns: these two calls are its
    only effects, so no panel is created, [wizardId] is not assigned, no
    action event is sent, and [wizardId] and [currentPage] are what they
    were (whatever other turns did to them in between). *)
Theorem C10_unauthenticated_changes_nothing o s :
  exists st1,
    run showPlaybookGenerationPage o s
      = (record (Began isAuthenticated) s, [], st1) /\
    forall o1 s1, exists st2,
      resume st1 (with_bool (Resolved false)) o1 s1
        = Some (record (Began (showErrorMessage
                                 "Log in to Ansible Lightspeed to use this feature."))
                       s1, [], st2) /\
      forall choice o2 s2,
        resume st2 (with_choice choice) o2 s2
          = Some (s2, [], match choice with
                          | Resolved _ => Done tt
                          | Rejected e => Failed e
                          end).
Proof.
  eexists. split; [reflexivity |].
  intros o1 s1. eexists. split; [reflexivity |].
  intros [c | e] o2 s2; reflexivity.
Qed.

(* ===================================================================== *)
(** * Further properties of the wizard                                   *)
(* ===================================================================== *)

(** ** The cases of the message handler *)

(** X1.  An [outline] message that already carries an outline is
    answered from the message itself: the handler posts the outline back
    with the message's own playbook, outline and generation id, and does
    nothing else; no request goes to the service and no spinner starts. *)
Theorem X1_outline_given_is_posted_back unk p m o s :
  m_command m = JStr "outline" ->
  truthy (m_outline m) = true ->
  run (onDidReceiveMessage unk p m) o s
    = (record (postMessage p (outline_given (m_playbook m) (m_outline m)
                                            (m_generationId m))) s,
       [], Done tt).
Proof.
  intros Hc Ht. unfold onDidReceiveMessage, case_outline.
  rewrite Hc. cbn. rewrite Ht. reflexivity.
Qed.

Lemma X1_witness :
  run (onDidReceiveMessage unknown 0 outline_edited) oracleA
      (ms (after unknown (opening oracleA)))
    = (record (postMessage 0 (outline_given (JStr "- hosts: all")
                                            (JStr "1. Install nginx")
                                            (JStr "gen-1")))
              (ms (after unknown (opening oracleA))),
       [], Done tt).
Proof.
  apply (@X1_outline_given_is_posted_back unknown 0 outline_edited oracleA
           (ms (after unknown (opening oracleA))));
    reflexivity.
Defined.

(** X2.  An [outline] message without an outline asks the service to
    create one: the request carries the message's text and generation
    id, no outline, [createOutline = true] and the current [wizardId].
    When the service answers with a response, the handler's callback
    posts [stopSpinner] and then the response as the outline, whatever
    state the other turns have left. *)
Theorem X2_outline_response_is_forwarded unk p m o s :
  m_command m = JStr "outline" ->
  truthy (m_outline m) = false ->
  exists k,
    run (onDidReceiveMessage unk p m) o s
      = (record (Began (playbookGenerationRequest
                          (mkRequest (m_text m) JUndefined true
                                     (m_generationId m) (wizardId s))))
                (record (postMessage p startSpinner) s),
         [mkTask (playbookGenerationRequest
                    (mkRequest (m_text m) JUndefined true
                               (m_generationId m) (wizardId s))) k],
         Done tt) /\
    forall response o1 s1,
      run (k (Resolved (inl response))) o1 s1
        = (record (postMessage p (outline_generated response))
                  (record (postMessage p stopSpinner) s1), [], Done tt).
Proof.
  intros Hc Ht. unfold onDidReceiveMessage, case_outline.
  rewrite Hc. cbn. rewrite Ht. cbn.
  eexists. split; [reflexivity |].
  intros response o1 s1. reflexivity.
Qed.

Lemma X2_witness :
  exists k,
    run (onDidReceiveMessage unknown 0 (from_webview "outline")) oracleA
        (ms (after unknown (opening oracleA)))
      = (record (Began (playbookGenerationRequest
                          (mkRequest (JStr "install nginx") JUndefined true
                                     (JStr "gen-1") (Some (o_uuid oracleA)))))
                (record (postMessage 0 startSpinner)
                        (ms (after unknown (opening oracleA)))),
         [mkTask (playbookGenerationRequest
                    (mkRequest (JStr "install nginx") JUndefined true
                               (JStr "gen-1") (Some (o_uuid oracleA)))) k],
         Done tt) /\
    forall response o1 s1,
      run (k (Resolved (inl response))) o1 s1
        = (record (postMessage 0 (outline_generated response))
                  (record (postMessage 0 stopSpinner) s1), [], Done tt).
Proof.
  apply (@X2_outline_response_is_forwarded unknown 0 (from_webview "outline")
           oracleA (ms (after unknown (opening oracleA))));
    reflexivity.
Defined.

(** X3.  On the [outline] path a request that is rejected (the remote
    call throws) is not reported: the callback given to [then] only
    handles fulfilment and the surrounding [try] has already been left,
    so the spinner is stopped and that is all; no error message is
    shown and nothing is left waiting. *)
Theorem X3_outline_rejection_is_silent unk p m o s :
  m_command m = JStr "outline" ->
  truthy (m_outline m) = false ->
  exists q k,
    run (onDidReceiveMessage unk p m) o s
      = (record (Began (playbookGenerationRequest q))
                (record (postMessage p startSpinner) s),
         [mkTask (playbookGenerationRequest q) k], Done tt) /\
    forall e o1 s1,
      run (k (Rejected e)) o1 s1
        = (record (postMessage p stopSpinner) s1, [], Failed e).
Proof.
  intros Hc Ht. unfold onDidReceiveMessage, case_outline.
  rewrite Hc. cbn. rewrite Ht. cbn.
  eexists. eexists. split; [reflexivity |].
  intros e o1 s1. reflexivity.
Qed.

Lemma X3_witness :
  exists q k,
    run (onDidReceiveMessage unknown 0 (from_webview "outline")) oracleA
        (ms (after unknown (opening oracleA)))
      = (record (Began (playbookGenerationRequest q))
                (record (postMessage 0 startSpinner)
                        (ms (after unknown (opening oracleA)))),
         [mkTask (playbookGenerationRequest q) k], Done tt) /\
    forall e o1 s1,
      run (k (Rejected e)) o1 s1
        = (record (postMessage 0 stopSpinner) s1, [], Failed e).
Proof.
  apply (@X3_outline_rejection_is_silent unknown 0 (from_webview "outline")
           oracleA (ms (after unknown (opening oracleA))));
    reflexivity.
Defined.

(** X4.  A [generateCode] message that already carries a playbook is
    answered without the service: the handler posts the playbook
    message with the message's own playbook, generation id and outline
    and with [html] undefined, records the suggestion for content
    matching and runs the fetch-training-matches command. *)
Theorem X4_playbook_given_is_posted unk p m o s :
  m_command m = JStr "generateCode" ->
  truthy (m_playbook m) = true ->
  run (onDidReceiveMessage unk p m) o s
    = (record (Began (executeCommand LIGHTSPEED_FETCH_TRAINING_MATCHES))
         (record (suggestionDetails_set (m_generationId m) (m_playbook m))
            (record (postMessage p (playbook_ready (m_playbook m)
                                      (m_generationId m) (m_outline m)
                                      JUndefined)) s)),
       [], Done tt).
Proof.
  intros Hc Ht. unfold onDidReceiveMessage, case_generateCode.
  rewrite Hc. cbn. rewrite Ht. reflexivity.
Qed.

Lemma X4_witness :
  run (onDidReceiveMessage unknown 0
         (mkMessage (JStr "generateCode") (JStr "install nginx")
                    (JStr "1. Install nginx") (JStr "- hosts: all")
                    (JStr "gen-1") JUndefined))
      oracleA (ms world0)
    = (record (Began (executeCommand LIGHTSPEED_FETCH_TRAINING_MATCHES))
         (record (suggestionDetails_set (JStr "gen-1") (JStr "- hosts: all"))
            (record (postMessage 0 (playbook_ready (JStr "- hosts: all")
                                      (JStr "gen-1") (JStr "1. Install nginx")
                                      JUndefined)) (ms world0))),
       [], Done tt).
Proof.
  apply (@X4_playbook_given_is_posted unknown 0
           (mkMessage (JStr "generateCode") (JStr "install nginx")
                      (JStr "1. Install nginx") (JStr "- hosts: all")
                      (JStr "gen-1") JUndefined)
           oracleA (ms world0));
    reflexivity.
Defined.

(** X5.  A [generateCode] message without a playbook sends the message's
    outline to the service, with [createOutline] true exactly when that
    outline is [undefined].  When the response arrives the handler posts
    [stopSpinner], then the playbook message with the playbook and the
    generation id of the response (not of the message) and the outline
    of the message, and hands the same playbook and id to content
    matching. *)
Theorem X5_generated_playbook_is_posted unk p m o s :
  m_command m = JStr "generateCode" ->
  truthy (m_playbook m) = false ->
  exists st,
    run (onDidReceiveMessage unk p m) o s
      = (record (Began (playbookGenerationRequest
                          (mkRequest (m_text m) (m_outline m)
                                     (is_undefined (m_outline m))
                                     (m_generationId m) (wizardId s))))
                (record (postMessage p startSpinner) s), [], st) /\
    forall response o1 s1,
      resume st (with_generation (Resolved (inl response))) o1 s1
        = Some
            (record (Began (executeCommand LIGHTSPEED_FETCH_TRAINING_MATCHES))
               (record (suggestionDetails_set
                          (JStr (r_generationId response))
                          (JStr (r_playbook response)))
                  (record (postMessage p
                             (playbook_ready (JStr (r_playbook response))
                                (JStr (r_generationId response))
                                (m_outline m) JUndefined))
                     (record (postMessage p stopSpinner) s1))),
             [], Done tt).
Proof.
  intros Hc Ht. unfold onDidReceiveMessage, case_generateCode.
  rewrite Hc. cbn. rewrite Ht. cbn.
  eexists. split; [reflexivity |].
  intros response o1 s1. reflexivity.
Qed.

Lemma X5_witness :
  exists st,
    run (onDidReceiveMessage unknown 0 (from_webview "generateCode")) oracleA
        (ms (after unknown (opening oracleA)))
      = (record (Began (playbookGenerationRequest
                          (mkRequest (JStr "install nginx") JUndefined true
                                     (JStr "gen-1") (Some (o_uuid oracleA)))))
                (record (postMessage 0 startSpinner)
                        (ms (after unknown (opening oracleA)))), [], st) /\
    forall response o1 s1,
      resume st (with_generation (Resolved (inl response))) o1 s1
        = Some
            (record (Began (executeCommand LIGHTSPEED_FETCH_TRAINING_MATCHES))
               (record (suggestionDetails_set
                          (JStr (r_generationId response))
                          (JStr (r_playbook response)))
                  (record (postMessage 0
                             (playbook_ready (JStr (r_playbook response))
                                (JStr (r_generationId response))
                                JUndefined JUndefined))
                     (record (postMessage 0 stopSpinner) s1))),
             [], Done tt).
Proof.
  apply (@X5_generated_playbook_is_posted unknown 0
           (from_webview "generateCode") oracleA
           (ms (after unknown (opening oracleA))));
    reflexivity.
Defined.

(** X6.  On the [generateCode] path a rejected request is caught: the
    handler posts [stopSpinner], shows the message of the exception, and
    stops there; no playbook is posted and content matching is not
    run. *)
Theorem X6_generateCode_rejection_is_shown unk p m o s :
  m_command m = JStr "generateCode" ->
  truthy (m_playbook m) = false ->
  exists q st,
    run (onDidReceiveMessage unk p m) o s
      = (record (Began (playbookGenerationRequest q))
                (record (postMessage p startSpinner) s), [], st) /\
    forall e o1 s1,
      resume st (with_generation (Rejected e)) o1 s1
        = Some (record (Began (showErrorMessage (message_of e)))
                       (record (postMessage p stopSpinner) s1), [], Done tt).
Proof.
  intros Hc Ht. unfold onDidReceiveMessage, case_generateCode.
  rewrite Hc. cbn. rewrite Ht. cbn.
  eexists. eexists. split; [reflexivity |].
  intros e o1 s1. reflexivity.
Qed.

Lemma X6_witness :
  exists q st,
    run (onDidReceiveMessage unknown 0 (from_webview "generateCode")) oracleA
        (ms (after unknown (opening oracleA)))
      = (record (Began (playbookGenerationRequest q))
                (record (postMessage 0 startSpinner)
                        (ms (after unknown (opening oracleA)))), [], st) /\
    forall e o1 s1,
      resume st (with_generation (Rejected e)) o1 s1
        = Some (record (Began (showErrorMessage (message_of e)))
                       (record (postMessage 0 stopSpinner) s1), [], Done tt).
Proof.
  apply (@X6_generateCode_rejection_is_shown unknown 0
           (from_webview "generateCode") oracleA
           (ms (after unknown (opening oracleA))));
    reflexivity.
Defined.

(** X7.  If the editor cannot be opened (either [openTextDocument] or
    [showTextDocument] is rejected), the [openEditor] case stops with
    that exception before anything else: no close event is sent,
    [wizardId] and [currentPage] stay as they are and the panel is not
    disposed, so the wizard remains open. *)
Theorem X7_editor_failure_keeps_wizard_open unk p m o s :
  m_command m = JStr "openEditor" ->
  exists st1,
    run (onDidReceiveMessage unk p m) o s
      = (record (Began (openTextDocument "ansible" (m_playbook m))) s, [], st1) /\
    (forall e o1 s1,
       resume st1 (with_document (Rejected e)) o1 s1 = Some (s1, [], Failed e)) /\
    (forall doc o1 s1, exists st2,
       resume st1 (with_document (Resolved doc)) o1 s1
         = Some (record (Began (showTextDocument doc)) s1, [], st2) /\
       forall e o2 s2,
         resume st2 (with_unit (Rejected e)) o2 s2 = Some (s2, [], Failed e)).
Proof.
  intros Hc. unfold onDidReceiveMessage, case_openEditor.
  rewrite Hc. cbn.
  eexists. split; [reflexivity |]. split.
  - intros e o1 s1. reflexivity.
  - intros doc o1 s1. eexists. split; [reflexivity |].
    intros e o2 s2. reflexivity.
Qed.

Lemma X7_witness :
  exists st1,
    run (onDidReceiveMessage unknown 0 (from_webview "openEditor")) oracleA
        (ms (after unknown (opening oracleA)))
      = (record (Began (openTextDocument "ansible" JUndefined))
                (ms (after unknown (opening oracleA))), [], st1) /\
    (forall e o1 s1,
       resume st1 (with_document (Rejected e)) o1 s1 = Some (s1, [], Failed e)) /\
    (forall doc o1 s1, exists st2,
       resume st1 (with_document (Resolved doc)) o1 s1
         = Some (record (Began (showTextDocument doc)) s1, [], st2) /\
       forall e o2 s2,
         resume st2 (with_unit (Rejected e)) o2 s2 = Some (s2, [], Failed e)).
Proof.
  apply (@X7_editor_failure_keeps_wizard_open unknown 0
           (from_webview "openEditor") oracleA
           (ms (after unknown (opening oracleA))));
    reflexivity.
Defined.

(** X8.  [resetOutline] asks for confirmation with a modal information
    message whose only button is [Ok], and returns at once.  The webview
    is told to reset its outline only if the user chose [Ok]; a
    dismissed dialog, any other answer, or a rejected promise posts
    nothing.  Neither variable is touched. *)
Theorem X8_reset_needs_confirmation unk p m o s :
  m_command m = JStr "resetOutline" ->
  exists k,
    run (onDidReceiveMessage unk p m) o s
      = (record (Began (showInformationMessage "Are you sure?" true
                          "Resetting the outline will loose your changes."
                          ["Ok"])) s,
         [mkTask (showInformationMessage "Are you sure?" true
                    "Resetting the outline will loose your changes." ["Ok"]) k],
         Done tt) /\
    (forall o1 s1,
       run (k (Resolved (Some "Ok"))) o1 s1
         = (record (postMessage p resetOutline_confirmed) s1, [], Done tt)) /\
    (forall choice o1 s1,
       choice <> Some "Ok" ->
       run (k (Resolved choice)) o1 s1 = (s1, [], Done tt)) /\
    (forall e o1 s1, run (k (Rejected e)) o1 s1 = (s1, [], Failed e)).
Proof.
  intros Hc. unfold onDidReceiveMessage, case_resetOutline.
  rewrite Hc. cbn.
  eexists. split; [reflexivity |]. split; [| split].
  - intros o1 s1. reflexivity.
  - intros choice o1 s1 Hn. cbn.
    destruct choice as [c |]; [| reflexivity]. unfold chose.
    destruct (String.eqb_spec c "Ok") as [-> | _]; [congruence | reflexivity].
  - intros e o1 s1. reflexivity.
Qed.

Lemma X8_witness :
  exists k,
    run (onDidReceiveMessage unknown 0 (from_webview "resetOutline")) oracleA
        (ms world0)
      = (record (Began (showInformationMessage "Are you sure?" true
                          "Resetting the outline will loose your changes."
                          ["Ok"])) (ms world0),
         [mkTask (showInformationMessage "Are you sure?" true
                    "Resetting the outline will loose your changes." ["Ok"]) k],
         Done tt) /\
    (forall o1 s1,
       run (k (Resolved (Some "Ok"))) o1 s1
         = (record (postMessage 0 resetOutline_confirmed) s1, [], Done tt)) /\
    (forall choice o1 s1,
       choice <> Some "Ok" ->
       run (k (Resolved choice)) o1 s1 = (s1, [], Done tt)) /\
    (forall e o1 s1, run (k (Rejected e)) o1 s1 = (s1, [], Failed e)).
Proof.
  apply (@X8_reset_needs_confirmation unknown 0 (from_webview "resetOutline")
           oracleA (ms world0));
    reflexivity.
Defined.

(** ** Opening the wizard *)

(** X9.  For an authenticated user [showPlaybookGenerationPage] creates
    one panel, registers the two callbacks, assigns [wizardId], sets the
    title and the page, posts [init], and sends one [OPEN] event whose
    [fromPage] is the value [currentPage] had and whose [toPage] is 1;
    [currentPage] is 1 afterwards.  If the authentication check itself
    is rejected, nothing happens at all. *)
Theorem X9_authenticated_open o s :
  exists st,
    run showPlaybookGenerationPage o s
      = (record (Began isAuthenticated) s, [], st) /\
    (forall o1 s1,
       o_uuid o1 <> EmptyString ->
       resume st (with_bool (Resolved true)) o1 s1
         = Some (mkState (Some (o_uuid o1)) (JNum 1)
                   (live s1 ++ [next_panel s1]) (S (next_panel s1))
                   ((log s1 ++
                     [createWebviewPanel (next_panel s1);
                      onDidDispose_set (next_panel s1);
                      onDidReceiveMessage_set (next_panel s1);
                      title_set (next_panel s1) "Ansible Lightspeed";
                      html_set (next_panel s1);
                      postMessage (next_panel s1) init;
                      Began (feedbackRequest
                               (mkAction (o_uuid o1) OPEN (currentPage s1) (JNum 1))
                               (o_test_token o1))]) ++
                    feedback_failure o1),
                 [], Done tt)) /\
    (forall e o1 s1,
       resume st (with_bool (Rejected e)) o1 s1 = Some (s1, [], Failed e)).
Proof.
  eexists. split; [reflexivity |]. split.
  - intros o1 s1 Hu. apply String.eqb_neq in Hu.
    unfold sendActionEvent, feedback_failure. cbn. rewrite Hu. cbn.
    destruct (o_feedback_throws o1); cbn; unfold record; cbn;
      rewrite ?app_nil_r, <- ?app_assoc; reflexivity.
  - intros e o1 s1. reflexivity.
Qed.

Lemma X9_witness :
  exists st,
    run showPlaybookGenerationPage oracleA (ms world0)
      = (record (Began isAuthenticated) (ms world0), [], st) /\
    resume st (with_bool (Resolved true)) oracleA
           (record (Began isAuthenticated) (ms world0))
      = Some (mkState (Some (o_uuid oracleA)) (JNum 1) [0] 1
                [Began isAuthenticated;
                 createWebviewPanel 0; onDidDispose_set 0;
                 onDidReceiveMessage_set 0;
                 title_set 0 "Ansible Lightspeed"; html_set 0;
                 postMessage 0 init;
                 Began (feedbackRequest
                          (mkAction (o_uuid oracleA) OPEN JUndefined (JNum 1))
                          false)],
              [], Done tt).
Proof.
  destruct (X9_authenticated_open oracleA (ms world0)) as (st & E1 & E2 & _).
  exists st. split; [exact E1 |].
  apply (E2 oracleA (record (Began isAuthenticated) (ms world0))).
  discriminate.
Defined.

(** ** What holds in every world the event loop can reach *)

(** X10.  The two variables go together: whenever [wizardId] is
    undefined, so is [currentPage]; and [wizardId] is never the empty
    string, so that [if (wizardId)] tests exactly whether it is
    defined. *)
Theorem X10_page_only_with_identifier unk es w :
  steps unk world0 es = Some w ->
  (wizardId (ms w) = None -> currentPage (ms w) = JUndefined) /\
  wizardId (ms w) <> Some EmptyString /\
  truthy_id (wizardId (ms w))
    = match wizardId (ms w) with Some _ => true | None => false end.
Proof.
  intros H. apply steps_ok in H. destruct H as [(Hp & _) _].
  unfold page_inv in Hp. split; [| split].
  - intros E. rewrite E in Hp. apply Hp. reflexivity.
  - intros E. rewrite E in Hp. destruct Hp as [Hp _]; [reflexivity | discriminate].
  - destruct (wizardId (ms w)) as [u |]; [| reflexivity].
    destruct (truthy_id (Some u)) eqn:T; [reflexivity |].
    destruct (Hp eq_refl); discriminate.
Qed.

Lemma X10_witness :
  (wizardId (ms (after unknown two_panels_first_closed)) = None ->
   currentPage (ms (after unknown two_panels_first_closed)) = JUndefined) /\
  wizardId (ms (after unknown two_panels_first_closed)) <> Some EmptyString /\
  truthy_id (wizardId (ms (after unknown two_panels_first_closed)))
    = match wizardId (ms (after unknown two_panels_first_closed)) with
      | Some _ => true
      | None => false
      end.
Proof.
  apply (@X10_page_only_with_identifier unknown two_panels_first_closed).
  vm_compute; reflexivity.
Defined.

(** X11.  Every step of the event loop does one of three things to the
    identifier and the panels: it keeps both; or it leaves [wizardId]
    and [currentPage] undefined and creates no panel; or it creates
    exactly one panel and leaves [wizardId] defined.  So the identifier
    is never exchanged for another one except by opening a panel, and
    no panel is ever opened without an identifier being set. *)
Theorem X11_what_a_step_does unk es w e w' :
  steps unk world0 es = Some w ->
  step unk w e = Some w' ->
  (wizardId (ms w') = wizardId (ms w) /\ live (ms w') = live (ms w)) \/
  (wizardId (ms w') = None /\ currentPage (ms w') = JUndefined /\
   incl (live (ms w')) (live (ms w))) \/
  (wizardId (ms w') <> None /\
   exists p, live (ms w') = live (ms w) ++ [p]).
Proof.
  intros Hes He. apply steps_ok in Hes.
  destruct (@step_ok unk w e w' Hes He) as [[_ K] _].
  destruct K as [Ew El | Ew Ec El | q Ew El]; eauto 6.
Qed.

Lemma X11_witness :
  (wizardId (ms (after unknown one_transition))
     = wizardId (ms (after unknown (opening oracleA))) /\
   live (ms (after unknown one_transition))
     = live (ms (after unknown (opening oracleA)))) \/
  (wizardId (ms (after unknown one_transition)) = None /\
   currentPage (ms (after unknown one_transition)) = JUndefined /\
   incl (live (ms (after unknown one_transition)))
        (live (ms (after unknown (opening oracleA))))) \/
  (wizardId (ms (after unknown one_transition)) <> None /\
   exists p, live (ms (after unknown one_transition))
             = live (ms (after unknown (opening oracleA))) ++ [p]).
Proof.
  apply (@X11_what_a_step_does unknown (opening oracleA)
           (after unknown (opening oracleA))
           (Received 0 (from_webview "transition") oracleA)
           (after unknown one_transition));
    vm_compute; reflexivity.
Defined.

(** ** The action events tell the state *)

Lemma jsval_eqb_refl v : jsval_eqb v v = true.
Proof.
  destruct v; simpl; auto using Bool.eqb_reflx, Z.eqb_refl, String.eqb_refl.
Qed.

Lemma feedback_sent_app l1 l2 :
  feedback_sent (l1 ++ l2) = feedback_sent l1 ++ feedback_sent l2.
Proof.
  induction l1 as [| e l1 IH]; simpl; [reflexivity |].
  destruct (feedback_of e); simpl; rewrite IH; reflexivity.
Qed.

Lemma session_replay_app st l1 l2 :
  session_replay st (l1 ++ l2)
  = match session_replay st l1 with
    | Some st' => session_replay st' l2
    | None => None
    end.
Proof.
  revert st. induction l1 as [| a l1 IH]; intros st; simpl; [reflexivity |].
  destruct (session_step st a); [apply IH | reflexivity].
Qed.

(** The shapes of the state at the end of a turn. *)
Lemma told_silent s0 s :
  inv s0 -> told s0 ->
  feedback_sent (log s) = feedback_sent (log s0) ->
  wizardId s = wizardId s0 \/
    (wizardId s = None /\ truthy_id (wizardId s0) = false) ->
  currentPage s = currentPage s0 ->
  told s.
Proof.
  intros (Hp & _) Ht El Ew Ec. unfold told in *. rewrite El, Ht, Ec.
  destruct Ew as [-> | [-> Hf]]; [reflexivity |].
  destruct (Hp Hf) as [-> _]. reflexivity.
Qed.

Lemma told_event s0 s a :
  told s0 ->
  feedback_sent (log s) = feedback_sent (log s0) ++ [a] ->
  truthy_id (wizardId s0) = true ->
  a_wizardId a = match wizardId s0 with Some u => u | None => EmptyString end ->
  a_fromPage a = currentPage s0 ->
  currentPage s = a_toPage a ->
  (a_action a = TRANSITION /\ wizardId s = wizardId s0) \/
    (is_close a = true /\ a_toPage a = JUndefined /\ wizardId s = None) ->
  told s.
Proof.
  intros Ht El Hw Ea Ef Ec K. unfold told in *.
  rewrite El, session_replay_app, Ht. simpl.
  unfold session_step. simpl. rewrite Ef, jsval_eqb_refl. simpl.
  destruct (wizardId s0) as [u |] eqn:Eu; [| discriminate].
  simpl in Hw. rewrite Ea. apply negb_true_iff in Hw. rewrite Hw.
  simpl. rewrite String.eqb_refl.
  destruct K as [[Ka Kw] | (Kc & Kt & Kw)].
  - rewrite Ka, Kw, Ec. reflexivity.
  - unfold is_close in Kc. rewrite Kw, Ec, Kt.
    destruct (a_action a); try discriminate; reflexivity.
Qed.

Lemma told_open s0 s u :
  told s0 ->
  u <> EmptyString ->
  feedback_sent (log s)
    = feedback_sent (log s0) ++ [mkAction u OPEN (currentPage s0) (JNum 1)] ->
  wizardId s = Some u ->
  currentPage s = JNum 1 ->
  told s.
Proof.
  intros Ht Hu El Ew Ec. unfold told in *.
  rewrite El, session_replay_app, Ht. simpl.
  unfold session_step. simpl. rewrite jsval_eqb_refl.
  apply String.eqb_neq in Hu. rewrite Hu. simpl.
  rewrite Ew, Ec. reflexivity.
Qed.

Ltac turn2 :=
  repeat first
    [ progress cbn in *
    | progress unfold turn_post2, turn_post
    | match goal with H : inv2 _ |- _ => destruct H end
    | match goal with
      | H : oracle_ok ?o = true
        |- context [negb (o_uuid ?o =? EmptyString)%string] =>
          let H' := fresh "U" in
          pose proof H as H'; unfold oracle_ok in H'; rewrite H'
      end
    | turn_step ].

Ltac log_eq :=
  cbn; rewrite ?feedback_sent_app; cbn; rewrite ?app_nil_r, <- ?app_assoc;
  reflexivity.

Ltac told_leaf :=
  match goal with
  | Hi : inv ?s, Ht : told ?s |- told _ =>
      first
        [ solve [eapply (@told_silent s); [exact Hi | exact Ht | log_eq | side | side]]
        | solve [eapply (@told_event s);
                 [exact Ht | log_eq | assumption | reflexivity | reflexivity
                 | reflexivity
                 | first [left; split; reflexivity
                         | right; repeat split; reflexivity]]]
        | solve [eapply (@told_open s);
                 [exact Ht
                 | apply String.eqb_neq, negb_true_iff; eassumption
                 | log_eq | reflexivity | reflexivity]] ]
  end.

Section Handlers2.

Variable UNKNOWN_ERROR : string.

Lemma onDidDispose_ok2 p o s0 :
  inv2 s0 -> is_live p (live s0) = true -> p < next_panel s0 ->
  wp inv2 turn_post2 older onDidDispose o (turn_post2 s0)
    (mkState (wizardId s0) (currentPage s0) (without p (live s0))
             (next_panel s0) (log s0)).
Proof.
  intros H Hl Hlt. unfold onDidDispose, sendActionEvent. turn2.
  all: try leaf.
  all: told_leaf.
Qed.

Lemma showPlaybookGenerationPage_ok2 o s0 :
  oracle_ok o = true -> inv2 s0 ->
  wp inv2 turn_post2 older showPlaybookGenerationPage o (turn_post2 s0) s0.
Proof.
  intros Ho H. unfold showPlaybookGenerationPage, sendActionEvent. turn2.
  all: try leaf.
  all: told_leaf.
Qed.

Lemma onDidReceiveMessage_ok2 p m o s0 :
  oracle_ok o = true -> inv2 s0 -> p < next_panel s0 ->
  wp inv2 turn_post2 older (onDidReceiveMessage UNKNOWN_ERROR p m) o
     (turn_post2 s0) s0.
Proof.
  intros Ho H Hlt.
  unfold onDidReceiveMessage, case_outline, case_generateCode, case_transition,
    case_openEditor, case_resetOutline, openEditor_accept, panel_dispose,
    onDidDispose, sendActionEvent, generatePlaybook, outline_then,
    generateCode_finish, contentMatch, openNewPlaybookEditor.
  turn2.
  all: try leaf.
  all: told_leaf.
Qed.

End Handlers2.

Lemma world0_ok2 : world_ok2 world0.
Proof.
  split; [| constructor]. split; [apply world0_ok | reflexivity].
Qed.

Lemma step_ok2 unk w e w' :
  world_ok2 w -> step unk w e = Some w' -> world_ok2 w'.
Proof.
  intros [Hi Hp] Hs. unfold step in Hs.
  destruct (oracle_ok (oracle_of e)) eqn:Ho; [simpl in Hs | discriminate].
  assert (G : forall p s,
             older (ms w) s ->
             wp inv2 turn_post2 older p (oracle_of e) (turn_post2 (ms w)) s ->
             forall waiting,
               Forall (task_ok inv2 turn_post2 older (ms w)) waiting ->
               world_ok2 (start p (oracle_of e) s waiting)).
  { intros p s L Hwp waiting Hw.
    edestruct (@start_ok inv2 turn_post2 older) as [HQ Hts];
      eauto using older_refl, older_trans, older_sync, older_record.
    split; [| exact Hts]. destruct HQ as [[HQ _] HT]. split; assumption. }
  assert (F : forall p, is_live p (live (ms w)) = true -> p < next_panel (ms w)).
  { intros p El. destruct Hi as [(_ & Hf & _) _]. apply Hf, is_live_In, El. }
  destruct e as [o | p m o | p o | i a o]; simpl in *.
  - inversion Hs; subst.
    apply G; auto using showPlaybookGenerationPage_ok2, older_refl.
  - destruct (is_live p (live (ms w))) eqn:El; [| discriminate].
    inversion Hs; subst. apply G; auto using older_refl.
    apply onDidReceiveMessage_ok2; auto.
  - destruct (is_live p (live (ms w))) eqn:El; [| discriminate].
    inversion Hs; subst. apply G; auto.
    + unfold older; simpl; lia.
    + apply onDidDispose_ok2; auto.
  - destruct (nth_error (pending w) i) as [t |] eqn:Et; [| discriminate].
    destruct (coerce (t_call t) a) as [r |]; [| discriminate].
    inversion Hs; subst. apply G; auto using Forall_drop_nth, older_refl.
    rewrite Forall_forall in Hp. apply (Hp t); eauto using nth_error_In, older_refl.
Qed.

Lemma steps_ok2 unk es : forall w w',
  world_ok2 w -> steps unk w es = Some w' -> world_ok2 w'.
Proof.
  induction es as [| e es IH]; intros w w' Hw H; simpl in H.
  - inversion H; subst; exact Hw.
  - destruct (step unk w e) as [w1 |] eqn:E; [| discriminate].
    apply (IH w1); auto. eapply step_ok2; eauto.
Qed.

(** X12.  The action events sent so far always tell the two variables.
    Read in order, every event fits the one before: its identifier is
    not empty, its [fromPage] is the [toPage] of the previous event (or
    undefined at the start and after a close), an [OPEN] goes to page 1,
    a [TRANSITION] or a close carries the identifier of the latest
    [OPEN], and nothing but an [OPEN] follows a close.  What such a
    reader ends up with is exactly [wizardId] and [currentPage]. *)
Theorem X12_events_tell_the_variables unk es w :
  steps unk world0 es = Some w ->
  session_replay no_session (feedback_sent (log (ms w)))
  = Some (wizardId (ms w), currentPage (ms w)).
Proof.
  intros H. apply (steps_ok2 _ _ world0_ok2) in H.
  destruct H as [[_ Ht] _]. exact Ht.
Qed.

Lemma X12_witness :
  session_replay no_session
    (feedback_sent (log (ms (after unknown second_panel_accepted))))
  = Some (None, JUndefined).
Proof.
  apply (@X12_events_tell_the_variables unknown second_panel_accepted
           (after unknown second_panel_accepted)).
  vm_compute; reflexivity.
Defined.

(** ** The spinner runs exactly while requests are in flight *)

Lemma spinning_app l1 l2 : spinning (l1 ++ l2) = (spinning l1 + spinning l2)%Z.
Proof. induction l1 as [| e l1 IH]; simpl; [reflexivity | rewrite IH; lia]. Qed.

Lemma generations_app ts1 ts2 :
  generations (ts1 ++ ts2) = (generations ts1 + generations ts2)%Z.
Proof. unfold generations. rewrite filter_app, length_app. lia. Qed.

Lemma generations_parked (st : stop unit) :
  generations (parked st) = stop_weight st.
Proof. destruct st as [r | e | T c k]; try reflexivity. destruct c; reflexivity. Qed.

Lemma parked_balanced (st : stop unit) :
  stop_balanced st -> Forall task_balanced (parked st).
Proof. destruct st; simpl; intros H; constructor; auto. Qed.

Lemma spinning_sync (X : Type) (c : sync X) o s :
  spinning (log (snd (sync_sem c o s)))
  = (spinning (log s) + spin_sync c)%Z.
Proof.
  destruct c; simpl; rewrite ?spinning_app; simpl; try lia.
  destruct (is_live p (live s)); simpl; rewrite ?spinning_app; simpl; lia.
Qed.

Lemma balanced_run (R : Type) (p : prog R) :
  forall n o s, balanced p n ->
    (spinning (log (fst (fst (run p o s)))) - spinning (log s)
     - generations (snd (fst (run p o s))) - stop_weight (snd (run p o s)))%Z
    = n /\
    Forall task_balanced (snd (fst (run p o s))) /\
    stop_balanced (snd (run p o s)).
Proof.
  induction p as [R r | R e | R X c k IH | R T c k IH | R q IHq k IHk];
    intros n o s H; simpl in *.
  - subst. repeat split; auto. unfold generations. simpl. lia.
  - subst. repeat split; auto. unfold generations. simpl. lia.
  - pose proof (spinning_sync c o s) as E.
    destruct (sync_sem c o s) as [x s'] eqn:Es. simpl in *.
    destruct (IH x _ o s' (H x)) as (H1 & H2 & H3).
    repeat split; auto. lia.
  - destruct H as [Hn Hk]. repeat split; auto.
    rewrite spinning_app. unfold generations. simpl. lia.
  - destruct H as [Hq Hk].
    destruct (IHq _ o s Hq) as (Q1 & Q2 & Q3).
    destruct (run q o s) as [[s1 ts1] st1]. simpl in *.
    destruct (IHk _ o s1 Hk) as (K1 & K2 & K3).
    destruct (run k o s1) as [[s2 ts2] st2]. simpl in *.
    repeat split; auto.
    + rewrite !generations_app, generations_parked. lia.
    + apply Forall_app; split; [exact Q2 |].
      apply Forall_app; split; [apply parked_balanced, Q3 | exact K2].
Qed.

Lemma start_balanced (p : prog unit) n o s waiting :
  balanced p n ->
  Forall task_balanced waiting ->
  (spinning (log s) + n)%Z = generations waiting ->
  world_balanced (start p o s waiting).
Proof.
  intros Hp Hw E. destruct (@balanced_run unit p n o s Hp) as (H1 & H2 & H3).
  unfold start. destruct (run p o s) as [[s' ts] st]. simpl in *.
  split; simpl.
  - rewrite !generations_app, generations_parked. lia.
  - apply Forall_app; split; [exact Hw |].
    apply Forall_app; split; [exact H2 | apply parked_balanced, H3].
Qed.

Lemma generations_cons t ts :
  generations (t :: ts)
  = (awaits_generation (t_call t) + generations ts)%Z.
Proof.
  unfold generations, is_generation. cbn [filter].
  destruct (t_call t); cbn [length awaits_generation]; lia.
Qed.

Lemma generations_drop_nth ts : forall i t,
  nth_error ts i = Some t ->
  generations (drop_nth i ts)
  = (generations ts - awaits_generation (t_call t))%Z.
Proof.
  induction ts as [| t0 ts IH]; intros i t E; destruct i as [| i];
    simpl in E; try discriminate.
  - inversion E; subst. rewrite generations_cons.
    change (drop_nth 0 (t :: ts)) with ts. lia.
  - specialize (IH i t E).
    change (drop_nth (S i) (t0 :: ts)) with (t0 :: drop_nth i ts).
    rewrite !generations_cons. lia.
Qed.

Ltac balance :=
  repeat first
    [ progress cbn
    | match goal with
      | |- _ /\ _ => split
      | |- forall _, _ => intro
      | |- context [if ?b then _ else _] => destruct b
      | |- context [match ?r with Resolved _ => _ | Rejected _ => _ end] =>
          destruct r
      | |- context [match ?r with inl _ => _ | inr _ => _ end] => destruct r
      | |- context [match ?r with Some _ => _ | None => _ end] => destruct r
      end ];
  try reflexivity; try lia.

Lemma onDidDispose_balanced : balanced onDidDispose 0.
Proof. unfold onDidDispose, sendActionEvent. balance. Qed.

Lemma showPlaybookGenerationPage_balanced :
  balanced showPlaybookGenerationPage 0.
Proof. unfold showPlaybookGenerationPage, sendActionEvent. balance. Qed.

Lemma onDidReceiveMessage_balanced unk p m :
  balanced (onDidReceiveMessage unk p m) 0.
Proof.
  unfold onDidReceiveMessage, case_outline, case_generateCode, case_transition,
    case_openEditor, case_resetOutline, openEditor_accept, panel_dispose,
    onDidDispose, sendActionEvent, generatePlaybook, outline_then,
    generateCode_finish, contentMatch, openNewPlaybookEditor.
  balance.
Qed.

Lemma step_balanced unk w e w' :
  world_balanced w -> step unk w e = Some w' -> world_balanced w'.
Proof.
  intros [Hs Hp] H. unfold step in H.
  destruct (negb (oracle_ok (oracle_of e))); [discriminate |].
  destruct e as [o | p m o | p o | i a o].
  - inversion H; subst.
    apply start_balanced with (n := 0%Z);
      auto using showPlaybookGenerationPage_balanced. lia.
  - destruct (is_live p (live (ms w))); [| discriminate].
    inversion H; subst.
    apply start_balanced with (n := 0%Z);
      auto using onDidReceiveMessage_balanced. lia.
  - destruct (is_live p (live (ms w))); [| discriminate].
    inversion H; subst.
    apply start_balanced with (n := 0%Z); auto using onDidDispose_balanced.
    simpl. lia.
  - destruct (nth_error (pending w) i) as [t |] eqn:Et; [| discriminate].
    destruct (coerce (t_call t) a) as [r |]; [| discriminate].
    inversion H; subst.
    apply start_balanced with (n := (- awaits_generation (t_call t))%Z).
    + rewrite Forall_forall in Hp. apply Hp. eapply nth_error_In; eauto.
    + apply Forall_drop_nth, Hp.
    + rewrite (generations_drop_nth _ _ Et). lia.
Qed.

(** X13.  The spinner runs exactly while generation requests are in
    flight: in every world the event loop can reach, the number of
    [startSpinner] messages posted so far exceeds the number of
    [stopSpinner] messages by the number of requests that have not
    settled yet.  So no spinner is left running once all requests have
    settled, and none is stopped twice. *)
Theorem X13_spinner_matches_requests unk es w :
  steps unk world0 es = Some w ->
  spinning (log (ms w)) = Z.of_nat (in_flight w).
Proof.
  assert (G : forall es w0 w1,
             world_balanced w0 -> steps unk w0 es = Some w1 ->
             world_balanced w1).
  { induction es0 as [| e es0 IH]; intros w0 w1 Hw H; simpl in H.
    - inversion H; subst; exact Hw.
    - destruct (step unk w0 e) as [w2 |] eqn:E; [| discriminate].
      apply (IH w2); auto. eapply step_balanced; eauto. }
  intros H. apply G in H.
  - destruct H as [H _]. exact H.
  - split; [reflexivity | constructor].
Qed.

Lemma X13_witness :
  spinning (log (ms (after unknown two_outlines))) = 2%Z.
Proof.
  apply (@X13_spinner_matches_requests unknown two_outlines
           (after unknown two_outlines)).
  vm_compute; reflexivity.
Defined.

(* ===================================================================== *)
(** * The pieces of the bootstrap script                                 *)
(* ===================================================================== *)

Module BootstrapFacts.

Import Bootstrap.
Import BootstrapTrace.

(** ** What a piece of the script adds to the trace *)

Section Within.

Variable P : action -> Prop.
Variable O : outcome -> Prop.

Lemma within_ret {A : Type} (a : A) : within P O (ret a).
Proof. intros t. exists []. rewrite app_nil_r. simpl. auto. Qed.

Lemma within_bind {A B : Type} (m : sh A) (k : A -> sh B) :
  within P O m -> (forall a, within P O (k a)) -> within P O (bind m k).
Proof.
  intros Hm Hk t. destruct (Hm t) as (a1 & E1 & F1 & R1).
  simpl. destruct (m t) as [t1 [a | o]]; simpl in *; subst t1.
  - destruct (Hk a (t ++ a1)) as (a2 & E2 & F2 & R2).
    exists (a1 ++ a2). rewrite app_assoc, E2.
    repeat split; auto. apply Forall_app. auto.
  - exists a1. auto.
Qed.

Lemma within_say l text : P (Logged l text) -> within P O (say l text).
Proof. intros H t. exists [Logged l text]. simpl. auto. Qed.

Lemma within_exit {A : Type} code : O (Exit code) -> within P O (@exit A code).
Proof. intros H t. exists []. rewrite app_nil_r. simpl. auto. Qed.

Lemma within_ends {A : Type} o :
  O o -> within P O (fun t => (t, @inr A outcome o)).
Proof. intros H t. exists []. rewrite app_nil_r. simpl. auto. Qed.

Lemma within_cmd env c :
  P (Ran c) ->
  (forall t, status env t c <> 0 -> O (Abort c (status env t c))) ->
  within P O (cmd env c).
Proof.
  intros H HO t. exists [Ran c]. unfold cmd.
  destruct (Nat.eqb_spec (status env t c) 0); simpl; auto.
Qed.

Lemma within_try_cmd env c : P (Ran c) -> within P O (try_cmd env c).
Proof. intros H t. exists [Ran c]. simpl. auto. Qed.

Lemma within_when (b : bool) body :
  (b = true -> within P O body) -> within P O (when b body).
Proof.
  destruct b; simpl; intros H; [apply H; reflexivity | apply within_ret].
Qed.

Lemma within_expand name x :
  (x = None -> O (Unset name)) -> within P O (expand name x).
Proof.
  destruct x; intros H; [apply within_ret | apply within_ends; auto].
Qed.

Lemma within_for_each l f :
  (forall x, In x l -> within P O (f x)) -> within P O (for_each l f).
Proof.
  induction l as [| x l IH]; intros H; cbn [for_each].
  - apply within_ret.
  - apply within_bind; [apply H; left; reflexivity |].
    intros _. apply IH. intros y Hy. apply H. right. exact Hy.
Qed.

Lemma within_rounds n body : within P O body -> within P O (rounds n body).
Proof.
  intros H. induction n as [| n IH]; cbn [rounds].
  - apply within_ret.
  - apply within_bind; [exact H | intros _; exact IH].
Qed.

Lemma within_log_notice text :
  P (Logged notice text) -> within P O (log ["notice"; text]).
Proof. apply within_say. Qed.

Lemma within_log_warning text :
  P (Logged warning text) -> within P O (log ["warning"; text]).
Proof. apply within_say. Qed.

Lemma within_log_error text :
  P (Logged error text) -> within P O (log ["error"; text]).
Proof. apply within_say. Qed.


End Within.

Lemma within_bootstrap P O env :
  within P O (script env) ->
  Forall P (did env) /\
  match ends env with inr o => O o | inl _ => True end.
Proof.
  intros H. destruct (H []) as (added & E & F & R).
  unfold did, ends, bootstrap. simpl in E. rewrite E. auto.
Qed.

(** ** Going through the script *)

Ltac open_script :=
  unfold script, install_debs, check_git, macos_podman, check_windows,
    check_path, check_filesystem, install_gh, install_npm_on_wsl,
    setup_virtualenv, install_dependencies, isolate_on_ci, setup_node,
    setup_podman, write_manifest, install_node_deps, version_of,
    get_version_line, get_version_complains;
  cbv zeta; cbn [Nat.eqb].

Ltac member := repeat first [left; reflexivity | right].

Ltac side :=
  first [ exact I | discriminate | intros; exact I
        | vm_compute; reflexivity | solve [cbn; member] ].

Ltac absurd_test :=
  solve [ discriminate
        | simpl in *; discriminate
        | simpl in *; congruence
        | match goal with
          | H : _ && _ = true |- _ =>
              apply andb_prop in H; destruct H; simpl in *; congruence
          end
        | match goal with
          | H : ?a && ?b = false, Ha : ?a = true, Hb : ?b = true |- _ =>
              rewrite Ha, Hb in H; discriminate H
          end ].

(** The pieces of the script one after the other; [known] is tried
    first on every piece, [side] on what is left to show of an action or
    of an outcome. *)
Ltac trace_with known side :=
  repeat first
    [ known
    | apply within_ret
    | apply within_log_notice; side
    | apply within_log_warning; side
    | apply within_log_error; side
    | apply within_exit; side
    | apply within_ends; side
    | apply within_cmd; side
    | apply within_try_cmd; side
    | apply within_expand; intros ?; side
    | apply within_for_each; intros ? _
    | apply within_rounds
    | apply within_when; intros ?; try absurd_test
    | match goal with
      | |- within _ _ (if true then _ else _) => cbv iota
      | |- within _ _ (if false then _ else _) => cbv iota
      | |- within _ _ (if ?b then _ else _) => destruct b eqn:?
      | |- within _ _ (match ?x with Some _ => _ | None => _ end) =>
          destruct x eqn:?
      end
    | apply within_bind; [| intros ?] ].

Ltac trace known := trace_with known side.

(** ** Ends of the script that are not its own [exit] statements *)

Lemma crash_verdict env t o : crash env o -> verdict env t o.
Proof. destruct o; simpl; tauto. Qed.

Ltac crashed :=
  first
    [ exact I
    | solve [ intros; assumption ]
    | discriminate
    | solve [ left; split; [reflexivity | assumption] ]
    | solve [ right; split; [reflexivity |]; split; [assumption |];
              match goal with
              | H : negb (gh_present _) = true |- _ =>
                  apply negb_true_iff in H; exact H
              end ] ].

(** A piece that has no [exit] in it ends the script only by a crash. *)
Ltac plain := trace_with fail crashed.

Section Plain.

Variable env : Env.

Local Abbreviation quiet := (within (fun _ => True) (crash env)).

Lemma install_debs_plain : quiet (install_debs env).
Proof. unfold install_debs. plain. Qed.

Lemma macos_podman_plain : quiet (macos_podman env).
Proof. unfold macos_podman. plain. Qed.

Lemma check_path_plain : quiet (check_path env).
Proof. unfold check_path. plain. Qed.

Lemma install_gh_plain : quiet (install_gh env).
Proof. unfold install_gh. plain. Qed.

Lemma install_npm_on_wsl_plain : quiet (install_npm_on_wsl env).
Proof. unfold install_npm_on_wsl. plain. Qed.

Lemma install_dependencies_plain WSL : quiet (install_dependencies env WSL).
Proof. unfold install_dependencies. plain. Qed.

Lemma setup_node_plain : quiet (setup_node env).
Proof. unfold setup_node. plain. Qed.

Lemma setup_podman_plain : quiet (setup_podman env).
Proof.
  unfold setup_podman, version_of, get_version_line, get_version_complains.
  cbv zeta. plain.
Qed.

Lemma write_manifest_plain : quiet (write_manifest env).
Proof.
  unfold write_manifest, version_of, get_version_complains. plain.
Qed.

Lemma install_node_deps_plain : quiet (install_node_deps env).
Proof. unfold install_node_deps. plain. Qed.

End Plain.

(** ** From one test of the script to the next *)

Lemma hoare_bind {A B : Type} Pre (m : sh A) (k : A -> sh B) Q1 Q E :
  hoare Pre m Q1 E ->
  (forall a, hoare (fun t => Q1 t a) (k a) Q E) ->
  hoare Pre (bind m k) Q E.
Proof.
  intros Hm Hk t Ht. specialize (Hm t Ht). simpl.
  destruct (m t) as [t1 [a | o]]; simpl in *.
  - apply (Hk a t1 Hm).
  - exact Hm.
Qed.

(** A piece without an [exit] keeps what held before it, if that is
    stable. *)
Lemma hoare_plain {A : Type} Pre (m : sh A) O E :
  stable Pre ->
  within (fun _ => True) O m ->
  (forall t o, O o -> E t o) ->
  hoare Pre m (fun t _ => Pre t) E.
Proof.
  intros S W C t Ht. destruct (W t) as (added & Ea & _ & R).
  rewrite Ea. destruct (snd (m t)) as [a | o].
  - apply S. exact Ht.
  - apply C. exact R.
Qed.

Lemma reached_stable k env : stable (reached k env).
Proof.
  intros t added (R0 & R1 & R2 & R3 & R4).
  split; [exact R0 |]. repeat split; intros; rewrite in_app_iff; left.
  - apply R1; assumption.
  - apply R1; assumption.
  - apply R2; assumption.
  - apply R3; assumption.
  - apply R4; assumption.
Qed.

Lemma reached_start env : reached 0 env [].
Proof. split; [reflexivity |]. repeat split; intros; lia. Qed.

(** ** The pieces that have an [exit] *)

Ltac split_on b :=
  lazymatch b with
  | negb ?x => split_on x
  | ?x && _ => split_on x
  | ?x || _ => split_on x
  | _ => destruct b eqn:?
  end.

(** Runs a piece of the script on an arbitrary machine, following every
    test. *)
Ltac run_piece :=
  repeat (cbn [bind ret Monad_sh fst snd negb andb orb];
          match goal with
          | |- context [if ?b then _ else _] => split_on b
          | |- context [match ?x with Some _ => _ | None => _ end] =>
              destruct x eqn:?
          end);
  cbn [bind ret Monad_sh fst snd negb andb orb].

Lemma log_notice text : log ["notice"; text] = say notice text.
Proof. reflexivity. Qed.

Lemma log_warning text : log ["warning"; text] = say warning text.
Proof. reflexivity. Qed.

Lemma log_error text : log ["error"; text] = say error text.
Proof. reflexivity. Qed.

Ltac open_piece :=
  rewrite ?log_notice, ?log_warning, ?log_error;
  unfold when, cmd, try_cmd, say, exit, expand.

(** What is left to show at the end of a path through a piece. *)

Ltac tests_go :=
  unfold first_failure_from, tests, outside;
  cbn [skipn find fst snd option_map];
  repeat match goal with
         | H : ?b = _ |- context [?b] => rewrite H
         end;
  cbn [negb andb orb fst snd option_map code_of exit_code];
  try reflexivity.

Ltac props :=
  repeat match goal with
         | H : (_ =? _)%string = true |- _ => apply String.eqb_eq in H
         | H : (_ =? _)%string = false |- _ => apply String.eqb_neq in H
         | H : (_ =? _)%nat = false |- _ => apply Nat.eqb_neq in H
         | H : (_ =? _)%nat = true |- _ => apply Nat.eqb_eq in H
         end.

Ltac done_in :=
  intros;
  first
    [ solve [exfalso; lia]
    | solve [exfalso; congruence]
    | solve [exfalso;
             match goal with H : ~ In _ _ |- _ => apply H; cbn [In]; member end]
    | solve [repeat rewrite in_app_iff; cbn [In];
             unfold git_config_email, git_config_name, venv_clear,
               pipx_uninstall; cbn [String.append];
             auto 12]
    | solve [repeat rewrite in_app_iff;
             repeat match goal with
                    | |- _ /\ _ => split
                    | |- _ \/ _ => left
                    end;
             match goal with
             | H : _ |- _ => apply H; first [assumption | lia]
             end] ].

Ltac leaf_reached :=
  match goal with
  | R : reached _ _ _ |- reached _ _ _ =>
      destruct R as (R0 & R1 & R2 & R3 & R4);
      split; [rewrite R0; tests_go | props; repeat split; done_in]
  end.

Ltac leaf_exit :=
  match goal with
  | R : reached _ _ _ |- verdict _ _ (Exit _) =>
      destruct R as (R0 & R1 & R2 & R3 & R4);
      split; [rewrite R0; tests_go | props; repeat split; done_in]
  end.

Ltac leaf_crash :=
  match goal with
  | |- verdict _ _ (Abort _ _) =>
      props; assumption
  end.

Ltac leaf := first [leaf_reached | leaf_exit | leaf_crash].

Ltac piece := intros t R; open_piece; run_piece; leaf.

Lemma check_git_ok env :
  hoare (reached 0 env) (check_git env)
        (fun t _ => reached 1 env t) (verdict env).
Proof. unfold check_git. piece. Qed.

Lemma check_windows_ok env :
  hoare (reached 1 env) (check_windows env)
        (fun t _ => reached 2 env t) (verdict env).
Proof. unfold check_windows. piece. Qed.

Lemma check_filesystem_ok env :
  hoare (reached 2 env) (check_filesystem env)
        (fun t _ => reached 3 env t) (verdict env).
Proof. unfold check_filesystem. piece. Qed.

Lemma setup_virtualenv_ok env :
  hoare (reached 3 env) (setup_virtualenv env)
        (fun t _ => reached 4 env t) (verdict env).
Proof. unfold setup_virtualenv. piece. Qed.

Lemma isolate_on_ci_ok env :
  hoare (reached 4 env) (isolate_on_ci env)
        (fun t _ => reached 6 env t) (verdict env).
Proof. unfold isolate_on_ci. piece. Qed.

Lemma check_ansible_ok env :
  hoare (reached 6 env) (check_tool env "ansible")
        (fun t _ => reached 7 env t) (verdict env).
Proof.
  unfold check_tool. intros t R. open_piece. run_piece; try leaf.
  discriminate.
Qed.

Lemma check_ansible_lint_ok env :
  hoare (reached 7 env) (check_tool env "ansible-lint")
        (fun t _ => reached 8 env t) (verdict env).
Proof.
  unfold check_tool. intros t R. open_piece. run_piece; try leaf.
  discriminate.
Qed.

Lemma last_line_ok env :
  hoare (reached 8 env) (@exit unit 0) (fun _ _ => False) (verdict env).
Proof. piece. Qed.

(** ** The script as a whole *)

Ltac quiet_piece env :=
  first [ apply install_debs_plain | apply macos_podman_plain
        | apply check_path_plain | apply install_gh_plain
        | apply install_npm_on_wsl_plain | apply install_dependencies_plain
        | apply setup_node_plain | apply setup_podman_plain
        | apply write_manifest_plain | apply install_node_deps_plain
        | solve [plain] ].

Ltac next_piece env :=
  eapply hoare_bind;
  [ first
      [ apply check_git_ok | apply check_windows_ok
      | apply check_filesystem_ok | apply setup_virtualenv_ok
      | apply isolate_on_ci_ok | apply check_ansible_ok
      | apply check_ansible_lint_ok
      | apply hoare_plain with (O := crash env);
        [ apply reached_stable | quiet_piece env | apply crash_verdict ] ]
  | intros ?; cbv beta ].

Lemma script_verdict env :
  hoare (reached 0 env) (script env) (fun _ _ => False) (verdict env).
Proof.
  unfold script. cbv zeta. cbn [Nat.eqb].
  repeat next_piece env.
  apply last_line_ok.
Qed.

(** ** Failing command lines are accounted for *)

Section Accounted.

Variable env : Env.

Lemma accounted_ret {A : Type} (a : A) : accounted env (ret a).
Proof.
  intros t. exists []. rewrite app_nil_r. simpl. split; [auto | discriminate].
Qed.

Lemma accounted_bind {A B : Type} (m : sh A) (k : A -> sh B) :
  accounted env m -> (forall a, accounted env (k a)) ->
  accounted env (bind m k).
Proof.
  intros Hm Hk t. destruct (Hm t) as (a1 & E1 & R1).
  simpl. destruct (m t) as [t1 [a | o]]; simpl in *; subst t1.
  - destruct (Hk a (t ++ a1)) as (a2 & E2 & R2).
    exists (a1 ++ a2). rewrite app_assoc, E2. split; [reflexivity |].
    exact R2.
  - exists a1. split; [reflexivity |].
    intros c n [= ->]. apply R1. reflexivity.
Qed.

Lemma accounted_say l text : accounted env (say l text).
Proof.
  intros t. exists [Logged l text]. simpl. split; [auto | discriminate].
Qed.

Lemma accounted_log_notice text : accounted env (log ["notice"; text]).
Proof. apply accounted_say. Qed.

Lemma accounted_log_warning text : accounted env (log ["warning"; text]).
Proof. apply accounted_say. Qed.

Lemma accounted_log_error text : accounted env (log ["error"; text]).
Proof. apply accounted_say. Qed.

Lemma accounted_cmd c : accounted env (cmd env c).
Proof.
  intros t. exists [Ran c]. unfold cmd.
  destruct (status env t c =? 0)%nat; simpl; split; auto; try discriminate.
  intros c' n [= <- <-]. left. exists t. auto.
Qed.

Lemma accounted_try_cmd c : accounted env (try_cmd env c).
Proof.
  intros t. exists [Ran c]. simpl. split; [auto | discriminate].
Qed.

Lemma accounted_when (b : bool) body :
  (b = true -> accounted env body) -> accounted env (when b body).
Proof.
  destruct b; simpl; intros H; [apply H; reflexivity | apply accounted_ret].
Qed.

(** An end that is not the failure of a command line. *)
Lemma accounted_other {A : Type} o :
  (forall c n, o <> Abort c n) ->
  accounted env (fun t => (t, @inr A outcome o)).
Proof.
  intros H t. exists []. rewrite app_nil_r. simpl. split; [reflexivity |].
  intros c n [= ->]. destruct (H c n). reflexivity.
Qed.

Lemma accounted_exit {A : Type} code : accounted env (@exit A code).
Proof. apply accounted_other. discriminate. Qed.

Lemma accounted_expand name x : accounted env (expand name x).
Proof.
  destruct x; [apply accounted_ret | apply accounted_other; discriminate].
Qed.

Lemma accounted_for_each l f :
  (forall x, accounted env (f x)) -> accounted env (for_each l f).
Proof.
  intros H. induction l as [| x l IH]; cbn [for_each].
  - apply accounted_ret.
  - apply accounted_bind; [apply H | intros _; exact IH].
Qed.

Lemma accounted_rounds n body :
  accounted env body -> accounted env (rounds n body).
Proof.
  intros H. induction n as [| n IH]; cbn [rounds].
  - apply accounted_ret.
  - apply accounted_bind; [exact H | intros _; exact IH].
Qed.

Lemma accounted_missing_tool {A : Type} tool :
  command_v env tool = None ->
  accounted env (fun t => (t, @inr A outcome (Abort ("command -v " ++ tool) 1))).
Proof.
  intros H t. exists []. rewrite app_nil_r. simpl. split; [reflexivity |].
  intros c n [= <- <-]. right. left. split; [reflexivity |].
  exists tool. auto.
Qed.

Lemma accounted_missing_command {A : Type} args :
  get_version_finds env args = false ->
  accounted env
    (fun t => (t, @inr A outcome (Abort ("get_version " ++ args) 99))).
Proof.
  intros H t. exists []. rewrite app_nil_r. simpl. split; [reflexivity |].
  intros c n [= <- <-]. right. right. split; [reflexivity |].
  exists args. auto.
Qed.

Lemma accounted_check_tool tool : accounted env (check_tool env tool).
Proof.
  unfold check_tool. destruct (command_v env tool) eqn:E.
  - apply accounted_when. intros _.
    apply accounted_bind; [apply accounted_log_error | intros _].
    apply accounted_exit.
  - apply accounted_missing_tool. exact E.
Qed.

Lemma accounted_get_version_line args :
  accounted env (get_version_line env args).
Proof.
  unfold get_version_line. destruct (get_version_finds env args) eqn:E.
  - apply accounted_cmd.
  - apply accounted_bind; [apply accounted_log_error | intros _].
    apply accounted_missing_command. exact E.
Qed.

End Accounted.

Ltac account :=
  repeat first
    [ apply accounted_ret
    | apply accounted_check_tool
    | apply accounted_get_version_line
    | apply accounted_log_notice
    | apply accounted_log_warning
    | apply accounted_log_error
    | apply accounted_exit
    | apply accounted_expand
    | apply accounted_for_each; intros ?
    | apply accounted_rounds
    | apply accounted_cmd
    | apply accounted_try_cmd
    | apply accounted_other; discriminate
    | apply accounted_when; intros ?
    | match goal with
      | |- accounted _ (if ?b then _ else _) => destruct b
      | |- accounted _ (match ?x with Some _ => _ | None => _ end) =>
          destruct x
      end
    | apply accounted_bind; [| intros ?] ].

Lemma script_accounted env : accounted env (script env).
Proof.
  unfold script, install_debs, check_git, macos_podman, check_windows,
    check_path, check_filesystem, install_gh, install_npm_on_wsl,
    setup_virtualenv, install_dependencies, isolate_on_ci, setup_node,
    setup_podman, write_manifest, install_node_deps, version_of,
    get_version_complains.
  cbv zeta. cbn [Nat.eqb]. account.
Qed.

(** Every run ends, and ends as [verdict] says. *)
Lemma bootstrap_verdict env :
  exists o, ends env = inr o /\ verdict env (did env) o.
Proof.
  pose proof (script_verdict (reached_start env)) as H.
  unfold ends, did, bootstrap. destruct (snd (script env [])) as [[] | o].
  - destruct H.
  - exists o. auto.
Qed.

(** ** The claim about the bootstrap script *)

(** C7, as stated, fails at the virtualenv: the script finds it broken,
    recreates it, and goes on to the end instead of exiting. *)
Lemma C7_counterexample :
  python3_in_virtualenv stale_virtualenv = false /\
  In (Logged warning "Virtualenv broken, trying to recreate it ...")
     (did stale_virtualenv) /\
  In (Ran "python3 -m venv --clear") (did stale_virtualenv) /\
  ends stale_virtualenv = inr (Exit 0).
Proof. vm_compute. intuition. Qed.

(** C7, amended.  Each failure the script looks for has an [exit] with a
    number of its own, none of them 0; a malformed call of [log] leaves
    with 2.  On no machine does the script fall off its last line.
    When it ends through [exit], the code is that of the
    first test that fails on the machine, in the order of the script,
    and 0 if none fails; and by then the repairs that precede the tests
    have been made: on CI an unconfigured git has been configured with
    the two [git config] commands (so it never costs an [exit 40]
    there), a [python3] that was not from the virtualenv has led to
    [python3 -m venv --clear] (and costs an [exit 99] only if it is
    still wrong afterwards), and on CI an ansible or ansible-lint that
    was not on the PATH has been uninstalled with [pipx] (and costs 66
    or 67 only if [which -a] does not then list exactly one copy).  Any
    other end is a crash with its cause on the machine: a command line
    that leaves with a status other than 0 under [set -e] (the last
    command run, with the status the machine gave it there; or the
    assignment from [command -v] for a missing tool; or [get_version]
    for a missing command), [${HOME}] or [${OS}] expanded while unset
    under [set -u], or the wait for a podman machine that never comes
    up.  Each of the failures does occur on some machine. *)
Theorem C7_exit_codes env :
  (forall f, In f failures) /\
  NoDup (map exit_code failures) /\
  (forall f, exit_code f <> 0) /\
  (forall args,
     (forall l text, args = [l; text] ->
                     l <> "notice" /\ l <> "warning" /\ l <> "error") ->
     stops (log args) (Exit (exit_code bad_log_call))) /\
  (exists o, ends env = inr o) /\
  (forall code,
     ends env = inr (Exit code) ->
     code = code_of (first_failure env) /\ repaired env code (did env)) /\
  (forall o,
     ends env = inr o -> (forall code, o <> Exit code) -> crash env o) /\
  (forall c n, ends env = inr (Abort c n) -> aborted env c n (did env)) /\
  (forall f, f <> bad_log_call ->
             ends (exhibiting f) = inr (Exit (exit_code f))).
Proof.
  split; [| split; [| split; [| split; [| split; [| split; [| split; [| split]]]]]]].
  - intros f. destruct f; simpl; auto 10.
  - simpl. repeat constructor; simpl; intuition discriminate.
  - intros f. destruct f; simpl; discriminate.
  - intros args H.
    assert (B : forall text,
               stops (say error text ;; @exit unit 2) (Exit 2)).
    { intros text t. eexists. reflexivity. }
    unfold log.
    destruct args as [| l [| text [| x args]]]; try apply B.
    destruct (H l text eq_refl) as (H1 & H2 & H3).
    apply String.eqb_neq in H1, H2, H3. rewrite H1, H2, H3. apply B.
  - destruct (bootstrap_verdict env) as (o & E & _). exists o. exact E.
  - intros code E. destruct (bootstrap_verdict env) as (o & E' & V).
    rewrite E in E'. injection E' as <-. exact V.
  - intros o E N. destruct (bootstrap_verdict env) as (o' & E' & V).
    rewrite E in E'. injection E' as <-.
    destruct o; try exact V. destruct (N code). reflexivity.
  - intros c n E. destruct (script_accounted env []) as (added & Ea & R).
    unfold did, ends, bootstrap in *. rewrite Ea. apply R. exact E.
  - intros f Hf. destruct f; try congruence; vm_compute; reflexivity.
Qed.

Lemma C7_witness :
  stops (log ["fatal"; "no such level"]) (Exit 2) /\
  ends fresh_runner = inr (Exit 0) /\
  (In (Ran git_config_email) (did fresh_runner) /\
   In (Ran git_config_name) (did fresh_runner)) /\
  In (Ran (pipx_uninstall "ansible-lint")) (did fresh_runner) /\
  In (Ran venv_clear) (did (exhibiting virtualenv_broken)) /\
  ends without_gh_and_OS = inr (Unset "OS") /\
  crash without_gh_and_OS (Unset "OS") /\
  ends without_asdf = inr (Abort "asdf install" 127) /\
  aborted without_asdf "asdf install" 127 (did without_asdf).
Proof.
  assert (F : ends fresh_runner = inr (Exit 0)) by (vm_compute; reflexivity).
  assert (B : ends (exhibiting virtualenv_broken) = inr (Exit 99))
    by (vm_compute; reflexivity).
  assert (U : ends without_gh_and_OS = inr (Unset "OS"))
    by (vm_compute; reflexivity).
  destruct (C7_exit_codes fresh_runner)
    as (_ & _ & _ & L & _ & X & _ & _ & _).
  destruct (X 0 F) as (_ & G & _ & _ & P).
  destruct (C7_exit_codes (exhibiting virtualenv_broken))
    as (_ & _ & _ & _ & _ & X' & _ & _ & _).
  destruct (X' 99 B) as (_ & _ & V & _ & _).
  assert (A : ends without_asdf = inr (Abort "asdf install" 127))
    by (vm_compute; reflexivity).
  destruct (C7_exit_codes without_gh_and_OS)
    as (_ & _ & _ & _ & _ & _ & C & _ & _).
  destruct (C7_exit_codes without_asdf)
    as (_ & _ & _ & _ & _ & _ & _ & D & _).
  split; [| split; [| split; [| split; [| split; [| split; [| split; [| split]]]]]]].
  - apply L. intros l text E. inversion E; subst.
    repeat split; discriminate.
  - exact F.
  - apply G; [reflexivity | discriminate].
  - apply P; [discriminate | reflexivity |].
    cbn [In]. intros [H | [H | [H | [H | [H | []]]]]]; discriminate.
  - apply V; [reflexivity |].
    cbn [In]. intros [H | [H | [H | []]]]; discriminate.
  - exact U.
  - apply (C _ U). discriminate.
  - exact A.
  - apply (D _ _ A).
Defined.

End BootstrapFacts.

(* ===================================================================== *)
(** * Further properties of the bootstrap script                         *)
(* ===================================================================== *)

Module BootstrapMore.

Import Bootstrap.
Import BootstrapTrace.
Import BootstrapFacts.

(** ** The test on the tool paths *)

Lemma prefix_cons a p b s :
  String.prefix (String a p) (String b s)
  = if Ascii.eqb a b then String.prefix p s else false.
Proof.
  cbn [String.prefix]. destruct (Ascii.ascii_dec a b) as [-> | N].
  - rewrite Ascii.eqb_refl. reflexivity.
  - apply Ascii.eqb_neq in N. rewrite N. reflexivity.
Qed.

Lemma prefix_nil_r p : String.prefix p EmptyString = true -> p = EmptyString.
Proof. destruct p; [reflexivity | discriminate]. Qed.

(** An occurrence of [/out] at the head of [root ++ "/out" ++ tail] lies
    within [root], unless [root] is empty. *)
Lemma prefix_out_app root tail :
  String.prefix "/out" (root ++ "/out" ++ tail)%string = true ->
  root = EmptyString \/ String.prefix "/out" root = true.
Proof.
  destruct root as [| c1 [| c2 [| c3 [| c4 r]]]]; auto;
    cbn [String.append]; rewrite !prefix_cons;
    repeat match goal with
           | |- context [Ascii.eqb ?a ?b] =>
               destruct (Ascii.eqb_spec a b); try discriminate; try congruence
           end; subst; cbn [String.prefix]; try discriminate; auto.
  right. destruct r; reflexivity.
Qed.

Lemma contains_cons sub c r :
  contains sub (String c r) = false ->
  String.prefix sub (String c r) = false /\ contains sub r = false.
Proof. cbn [contains]. intros H. apply orb_false_iff in H. exact H. Qed.

Lemma before_out_cons c r :
  before_out (String c r)
  = if String.prefix "/out" (String c r) then EmptyString
    else String c (before_out r).
Proof. reflexivity. Qed.

Lemma before_out_app root tail :
  contains "/out" root = false ->
  before_out (root ++ "/out" ++ tail) = root.
Proof.
  induction root as [| c r IH]; intros H.
  - destruct tail; reflexivity.
  - apply contains_cons in H. destruct H as [Hp Hr].
    change (String c r ++ "/out" ++ tail)%string
      with (String c (r ++ "/out" ++ tail)).
    rewrite before_out_cons.
    destruct (String.prefix "/out" (String c (r ++ "/out" ++ tail))) eqn:E.
    + apply (prefix_out_app (String c r) tail) in E.
      destruct E as [E | E]; [discriminate | congruence].
    + rewrite (IH Hr). reflexivity.
Qed.



(** ** Errors are announced *)

Lemma announced_ret {A : Type} (a : A) : announced (ret a).
Proof. intros t. exists []. rewrite app_nil_r. simpl. split; [auto | discriminate]. Qed.

Lemma announced_bind {A B : Type} (m : sh A) (k : A -> sh B) :
  announced m -> (forall a, announced (k a)) -> announced (bind m k).
Proof.
  intros Hm Hk t. destruct (Hm t) as (a1 & E1 & R1).
  simpl. destruct (m t) as [t1 [a | o]]; simpl in *; subst t1.
  - destruct (Hk a (t ++ a1)) as (a2 & E2 & R2).
    exists (a1 ++ a2). rewrite app_assoc, E2. split; [reflexivity |].
    intros code Hc Hn. destruct (R2 code Hc Hn) as (b & text & ->).
    exists (a1 ++ b), text. rewrite app_assoc. reflexivity.
  - exists a1. split; [reflexivity |].
    intros code [= ->]. apply (R1 code). reflexivity.
Qed.

Lemma announced_say l text : announced (say l text).
Proof. intros t. exists [Logged l text]. simpl. split; [auto | discriminate]. Qed.

Lemma announced_log_notice text : announced (log ["notice"; text]).
Proof. apply announced_say. Qed.

Lemma announced_log_warning text : announced (log ["warning"; text]).
Proof. apply announced_say. Qed.

Lemma announced_log_error text : announced (log ["error"; text]).
Proof. apply announced_say. Qed.

Lemma announced_cmd env c : announced (cmd env c).
Proof.
  intros t. exists [Ran c]. unfold cmd.
  destruct (status env t c =? 0)%nat; simpl; split; auto; discriminate.
Qed.

Lemma announced_try_cmd env c : announced (try_cmd env c).
Proof. intros t. exists [Ran c]. simpl. split; [auto | discriminate]. Qed.

Lemma announced_when (b : bool) body :
  (b = true -> announced body) -> announced (when b body).
Proof.
  destruct b; simpl; intros H; [apply H; reflexivity | apply announced_ret].
Qed.

Lemma announced_other {A : Type} o :
  (forall code, o <> Exit code) ->
  announced (fun t => (t, @inr A outcome o)).
Proof.
  intros H t. exists []. rewrite app_nil_r. simpl. split; [reflexivity |].
  intros code [= ->]. destruct (H code). reflexivity.
Qed.

Lemma announced_expand name x : announced (expand name x).
Proof.
  destruct x; [apply announced_ret | apply announced_other; discriminate].
Qed.

Lemma announced_for_each l f :
  (forall x, announced (f x)) -> announced (for_each l f).
Proof.
  intros H. induction l as [| x l IH]; cbn [for_each].
  - apply announced_ret.
  - apply announced_bind; [apply H | intros _; exact IH].
Qed.

Lemma announced_rounds n body : announced body -> announced (rounds n body).
Proof.
  intros H. induction n as [| n IH]; cbn [rounds].
  - apply announced_ret.
  - apply announced_bind; [exact H | intros _; exact IH].
Qed.

(** [log error ...] followed by [exit]. *)
Lemma announced_error_exit {A : Type} text code :
  announced (log ["error"; text] ;; @exit A code).
Proof.
  intros t. exists [Logged error text]. simpl. split; [reflexivity |].
  intros _ _ _. exists [], text. reflexivity.
Qed.

Lemma announced_exit_0 {A : Type} : announced (@exit A 0).
Proof.
  intros t. exists []. rewrite app_nil_r. simpl. split; [reflexivity |].
  intros code [= <-] N. destruct N. reflexivity.
Qed.

Ltac announce :=
  repeat first
    [ apply announced_ret
    | apply announced_error_exit
    | apply announced_exit_0
    | apply announced_log_notice
    | apply announced_log_warning
    | apply announced_log_error
    | apply announced_expand
    | apply announced_for_each; intros ?
    | apply announced_rounds
    | apply announced_cmd
    | apply announced_try_cmd
    | apply announced_other; discriminate
    | apply announced_when; intros ?
    | match goal with
      | |- announced (if ?b then _ else _) => destruct b
      | |- announced (match ?x with Some _ => _ | None => _ end) =>
          destruct x
      end
    | apply announced_bind; [| intros ?] ].

Lemma script_exit_codes env :
  within (fun _ => True) (exits_in [0; 1; 40; 66; 67; 68; 99; 100])
         (script env).
Proof. open_script. unfold check_tool. trace fail. Qed.

Lemma script_announced env : announced (script env).
Proof. open_script. unfold check_tool. announce. Qed.


(** ** What holds of every run of the script *)

(** X14.  A tool found under [out/] of the checkout passes the test of
    the loop over [ansible] and [ansible-lint], provided the path of the
    checkout has no [/out] in it: the round adds nothing to the trace and
    goes on. *)
Theorem X14_tool_of_the_checkout_passes env tool rest t :
  contains "/out" (pwd_P env) = false ->
  command_v env tool = Some (pwd_P env ++ "/out" ++ rest)%string ->
  check_tool env tool t = (t, inl tt).
Proof.
  intros H E. unfold check_tool. rewrite E, before_out_app by exact H.
  rewrite String.eqb_refl. reflexivity.
Qed.

Lemma X14_witness :
  check_tool healthy "ansible" [] = ([], inl tt).
Proof.
  apply (@X14_tool_of_the_checkout_passes healthy "ansible"
           "/venvs/localhost/bin/ansible" []); reflexivity.
Defined.



(** X16.  Whatever the machine, an [exit] of the script has one of the
    codes 0, 1, 40, 66, 67, 68, 99, 100: every call of [log] in the
    script is well formed, so the code 2 of a bad call never comes. *)
Theorem X16_codes_of_the_script env code :
  ends env = inr (Exit code) ->
  In code [0; 1; 40; 66; 67; 68; 99; 100].
Proof.
  intros E. destruct (within_bootstrap (script_exit_codes env)) as [_ W].
  rewrite E in W. exact W.
Qed.

Lemma X16_witness :
  ends (exhibiting git_unconfigured) = inr (Exit 40)
  /\ In 40 [0; 1; 40; 66; 67; 68; 99; 100].
Proof.
  split; [vm_compute; reflexivity |].
  apply (@X16_codes_of_the_script (exhibiting git_unconfigured) 40).
  vm_compute. reflexivity.
Defined.

(** X17.  Whatever the machine, when the script ends with an [exit] of
    nonzero code, the last thing it did was [log error]: no failure of
    its own tests is silent. *)
Theorem X17_failures_are_announced env code :
  ends env = inr (Exit code) -> code <> 0 ->
  exists before text, did env = before ++ [Logged error text].
Proof.
  intros E N. destruct (script_announced env []) as (added & Ea & R).
  unfold did, ends, bootstrap in *. rewrite Ea. simpl. eauto.
Qed.

Lemma X17_witness :
  exists before text,
    did (exhibiting world_writable_filesystem)
    = before ++ [Logged error text].
Proof.
  apply (@X17_failures_are_announced
           (exhibiting world_writable_filesystem) 100).
  - vm_compute. reflexivity.
  - discriminate.
Defined.

(** X18.  Outside CI ([CI] unset or empty) the script runs none of the
    commands that change the user's machine beyond installing: no
    [pipx uninstall], no [rm -rf], no [git config user...] that writes. *)
Theorem X18_outside_CI_nothing_is_removed env :
  CI env = EmptyString ->
  Forall (commands_are (fun c => negb (ci_only c))) (did env).
Proof.
  intros H.
  assert (W : within (commands_are (fun c => negb (ci_only c)))
                     (fun _ => True) (script env)).
  { open_script. unfold check_tool. rewrite H.
    change (EmptyString =? EmptyString)%string with true.
    trace fail. }
  apply within_bootstrap in W. apply W.
Qed.

Lemma X18_witness :
  Forall (commands_are (fun c => negb (ci_only c))) (did healthy).
Proof.
  apply (@X18_outside_CI_nothing_is_removed healthy). reflexivity.
Defined.

(** X19.  With [SKIP_PODMAN=1] the script runs no podman command on a
    line of its own (no install, no machine init or start, no pull, no
    container run) and never waits for a podman machine. *)
Theorem X19_skip_podman_is_honoured env :
  SKIP_PODMAN env = "1" ->
  Forall (commands_are (fun c => negb (contains "podman" c))) (did env)
  /\ forall what, ends env <> inr (Waits what).
Proof.
  intros H.
  assert (W : within (commands_are (fun c => negb (contains "podman" c)))
                     never_waits (script env)).
  { open_script. unfold check_tool. rewrite H.
    change ("1" =? "1")%string with true.
    trace fail. }
  apply within_bootstrap in W. destruct W as [F W]. split; [exact F |].
  intros what E. rewrite E in W. exact W.
Qed.

Lemma X19_witness :
  Forall (commands_are (fun c => negb (contains "podman" c))) (did healthy)
  /\ forall what, ends healthy <> inr (Waits what).
Proof.
  apply (@X19_skip_podman_is_honoured healthy). reflexivity.
Defined.

(** X20.  [sudo] is used for three things only: installing missing
    Debian packages, installing [gh], and installing npm under WSL.  On
    a machine where none of the three is needed, no command with [sudo]
    in it is run. *)
Theorem X20_sudo_only_to_install env :
  apt_get_present env && debs_missing env = false ->
  gh_present env = true ->
  (npm_path env =? "/mnt/c/Program Files/nodejs/npm") = false ->
  Forall (commands_are (fun c => negb (contains "sudo" c))) (did env).
Proof.
  intros H1 H2 H3.
  assert (W : within (commands_are (fun c => negb (contains "sudo" c)))
                     (fun _ => True) (script env)).
  { open_script. unfold check_tool. rewrite H2, H3.
    trace fail. }
  apply within_bootstrap in W. apply W.
Qed.

Lemma X20_witness :
  Forall (commands_are (fun c => negb (contains "sudo" c))) (did healthy).
Proof.
  apply (@X20_sudo_only_to_install healthy); reflexivity.
Defined.

(** X21.  [log] goes on to the next line exactly when it is called with
    two arguments of which the first is [notice], [warning] or [error],
    and then adds that one line; any other call logs the mistake as an
    error and leaves the script with status 2. *)
Theorem X21_log_calls args t :
  (exists l text,
      args = [level_name l; text] /\
      log args t = (t ++ [Logged l text], inl tt))
  \/ ((forall l text, args <> [level_name l; text]) /\
      exists text, log args t = (t ++ [Logged error text], inr (Exit 2))).
Proof.
  destruct args as [| l [| text [| x rest]]];
    try (right; split; [intros [] ?; discriminate | eexists; reflexivity]).
  unfold log.
  destruct (String.eqb_spec l "notice") as [-> | N1].
  { left. exists notice, text. split; reflexivity. }
  destruct (String.eqb_spec l "warning") as [-> | N2].
  { left. exists warning, text. split; reflexivity. }
  destruct (String.eqb_spec l "error") as [-> | N3].
  { left. exists error, text. split; reflexivity. }
  right. split.
  - intros [] text' [= -> _]; congruence.
  - eexists. reflexivity.
Qed.

End BootstrapMore.
